(** * Instant replay orchestration layer (main.cpp): a shallow embedding

    The media engine (GStreamer) and the RTSP serving library are external
    collaborators.  Their answers (which features the registry holds, whether
    an element factory can instantiate, whether two pads link) are inputs of
    the model; what [main.cpp] does with those answers is transcribed
    function by function, keeping the names of the source. *)

From stdpp Require Import gmap strings list pretty.
From Stdlib Require Import ZArith Lia Ascii.

Open Scope string_scope.

(** ** Configuration structure *)

Record ReplayConfig := mkReplayConfig {
  input_rtsp_url : string;
  buffer_seconds : Z;
  output_rtsp_port : Z;
  use_hardware_accel : bool;
  gpu_id : Z;
  output_mount_point : string
}.

(** The default constructor [ReplayConfig()]. *)
Definition default_config : ReplayConfig :=
  {| input_rtsp_url := "";
     buffer_seconds := 60;
     output_rtsp_port := 8554;
     use_hardware_accel := true;
     gpu_id := 0;
     output_mount_point := "/replay" |}.

(** ** Console output

    [g_print], [g_printerr] and [std::cout] are recorded as the format
    string together with the values substituted into it. *)

Inductive GValue :=
| GString (s : string)
| GInt (z : Z)
| GBool (b : bool)
| GNull.

Inductive Stream := Stdout | Stderr.

Record Output := mkOutput {
  out_stream : Stream;
  out_format : string;
  out_args : list GValue
}.

Definition g_print (fmt : string) (args : list GValue) : Output :=
  mkOutput Stdout fmt args.

Definition g_printerr (fmt : string) (args : list GValue) : Output :=
  mkOutput Stderr fmt args.

(** ** The plugin registry of the engine *)

Record GstRegistry := mkRegistry {
  features : gset string;
  plugins : gset string
}.

Definition gst_registry_lookup_feature (registry : GstRegistry) (name : string) : bool :=
  bool_decide (name ∈ features registry).

Definition gst_registry_find_plugin (registry : GstRegistry) (name : string) : bool :=
  bool_decide (name ∈ plugins registry).

(** ** Hardware acceleration detection *)

Inductive HWAccelType :=
| HW_ACCEL_NONE
| HW_ACCEL_NVIDIA
| HW_ACCEL_VAAPI
| HW_ACCEL_MSDK.

#[global] Instance HWAccelType_eq_dec : EqDecision HWAccelType.
Proof. solve_decision. Defined.

Definition detect_hardware_accel (registry : GstRegistry) : HWAccelType * list Output :=
  if gst_registry_lookup_feature registry "nvh264dec" then
    (HW_ACCEL_NVIDIA, [g_print "✓ NVIDIA nvcodec support detected\n" []])
  else if gst_registry_lookup_feature registry "vaapih264dec" then
    (HW_ACCEL_VAAPI, [g_print "✓ VAAPI support detected\n" []])
  else if gst_registry_lookup_feature registry "msdkh264dec" then
    (HW_ACCEL_MSDK, [g_print "✓ Intel MSDK support detected\n" []])
  else
    (HW_ACCEL_NONE,
     [g_print "⚠ No hardware acceleration detected, will use software codecs\n" []]).

Definition get_decoder_element (hw_type : HWAccelType) : string :=
  match hw_type with
  | HW_ACCEL_NVIDIA => "nvh264dec"
  | HW_ACCEL_VAAPI => "vaapih264dec"
  | HW_ACCEL_MSDK => "msdkh264dec"
  | _ => "avdec_h264"
  end.

Definition get_encoder_element (hw_type : HWAccelType) : string :=
  match hw_type with
  | HW_ACCEL_NVIDIA => "nvh264enc"
  | HW_ACCEL_VAAPI => "vaapih264enc"
  | HW_ACCEL_MSDK => "msdkh264enc"
  | _ => "x264enc"
  end.

(** The hardware type [main] works with: the probe is consulted only when
    hardware acceleration was not disabled on the command line. *)
Definition main_hw_type (config : ReplayConfig) (registry : GstRegistry)
  : HWAccelType * list Output :=
  if use_hardware_accel config then detect_hardware_accel registry
  else (HW_ACCEL_NONE, [g_print "Hardware acceleration disabled by user\n" []]).

(** The codec pair that goes with a backend. *)
Definition codec_pair (hw_type : HWAccelType) : string * string :=
  (get_decoder_element hw_type, get_encoder_element hw_type).

(** Selection as [main] performs it with hardware acceleration enabled. *)
Definition select (registry : GstRegistry) : string * string :=
  codec_pair (fst (detect_hardware_accel registry)).

(** Position in the fixed preference list; smaller is preferred. *)
Definition priority (hw_type : HWAccelType) : nat :=
  match hw_type with
  | HW_ACCEL_NVIDIA => 0
  | HW_ACCEL_VAAPI => 1
  | HW_ACCEL_MSDK => 2
  | HW_ACCEL_NONE => 3
  end.

(** A backend counts as present when the probe finds it, that is when its
    decoder feature is registered; software is the bottom of the order and
    needs no probe. *)
Definition present (registry : GstRegistry) (hw_type : HWAccelType) : bool :=
  match hw_type with
  | HW_ACCEL_NONE => true
  | _ => gst_registry_lookup_feature registry (get_decoder_element hw_type)
  end.

(** A backend supports a pair when both of its elements are registered. *)
Definition supports_pair (registry : GstRegistry) (hw_type : HWAccelType) : bool :=
  gst_registry_lookup_feature registry (get_decoder_element hw_type)
  && gst_registry_lookup_feature registry (get_encoder_element hw_type).

(** ** Objects of the engine

    Elements, the pipeline and the RTSP server are reference-counted objects
    kept in a store.  An element fresh from its factory holds one floating
    reference; adding it to a bin sinks that reference.  The link into an
    element's sink pad, its last requested state, its properties and the
    signal handlers connected to it are fields of the object. *)

Inductive GstState :=
| GST_STATE_VOID_PENDING
| GST_STATE_NULL
| GST_STATE_READY
| GST_STATE_PAUSED
| GST_STATE_PLAYING.

#[global] Instance GstState_eq_dec : EqDecision GstState.
Proof. solve_decision. Defined.

Inductive GstStateChangeReturn :=
| GST_STATE_CHANGE_FAILURE
| GST_STATE_CHANGE_SUCCESS
| GST_STATE_CHANGE_ASYNC
| GST_STATE_CHANGE_NO_PREROLL.

Record GstRTSPMediaFactory := mkFactory {
  launch : string;
  shared : bool;
  enable_rtcp : bool;
  protocols : Z;
  media_configure : bool
}.

Record GstObject := mkObject {
  refcount : nat;
  floating : bool;
  factory_name : string;
  object_name : string;
  props : list (string * GValue);
  children : list nat;
  sink_peer : option string;
  target_state : GstState;
  handlers : list (string * nat);
  mounts : list (string * GstRTSPMediaFactory)
}.

Definition new_object (is_floating : bool) (factory name : string) : GstObject :=
  mkObject 1 is_floating factory name [] [] None GST_STATE_NULL [] [].

Definition with_refcount (n : nat) (fl : bool) (o : GstObject) : GstObject :=
  mkObject n fl (factory_name o) (object_name o) (props o) (children o)
           (sink_peer o) (target_state o) (handlers o) (mounts o).

Definition with_props (ps : list (string * GValue)) (o : GstObject) : GstObject :=
  mkObject (refcount o) (floating o) (factory_name o) (object_name o) (ps ++ props o)
           (children o) (sink_peer o) (target_state o) (handlers o) (mounts o).

Definition with_child (c : nat) (o : GstObject) : GstObject :=
  mkObject (refcount o) (floating o) (factory_name o) (object_name o) (props o)
           (children o ++ [c]) (sink_peer o) (target_state o) (handlers o) (mounts o).

Definition with_sink_peer (p : option string) (o : GstObject) : GstObject :=
  mkObject (refcount o) (floating o) (factory_name o) (object_name o) (props o)
           (children o) p (target_state o) (handlers o) (mounts o).

Definition with_target_state (st : GstState) (o : GstObject) : GstObject :=
  mkObject (refcount o) (floating o) (factory_name o) (object_name o) (props o)
           (children o) (sink_peer o) st (handlers o) (mounts o).

Definition with_handler (h : string * nat) (o : GstObject) : GstObject :=
  mkObject (refcount o) (floating o) (factory_name o) (object_name o) (props o)
           (children o) (sink_peer o) (target_state o) (handlers o ++ [h]) (mounts o).

Definition with_mount (m : string * GstRTSPMediaFactory) (o : GstObject) : GstObject :=
  mkObject (refcount o) (floating o) (factory_name o) (object_name o) (props o)
           (children o) (sink_peer o) (target_state o) (handlers o) (m :: mounts o).

(** ** The process state

    [pipeline], [main_loop] and [shutdown_requested] are the globals of the
    source; [main_loop] holds the quit flag of the loop once it exists. *)

Record World := mkWorld {
  heap : gmap nat GstObject;
  next_id : nat;
  console : list Output;
  pipeline : option nat;
  main_loop : option bool;
  shutdown_requested : bool
}.

Definition initial_world : World :=
  mkWorld ∅ 0 [] None None false.

Definition set_heap (h : gmap nat GstObject) (w : World) : World :=
  mkWorld h (next_id w) (console w) (pipeline w) (main_loop w) (shutdown_requested w).

(** A computation that reads and updates the process state. *)
Definition M (A : Type) : Type := World -> A * World.

#[global] Instance M_ret : MRet M := fun A (a : A) w => (a, w).
#[global] Instance M_bind : MBind M :=
  fun A B (f : A -> M B) (m : M A) w => let '(a, w') := m w in f a w'.

Definition get_world : M World := fun w => (w, w).

Definition modify (f : World -> World) : M unit := fun w => (tt, f w).

Definition emit (o : Output) : M unit :=
  modify (fun w => mkWorld (heap w) (next_id w) (console w ++ [o]) (pipeline w)
                           (main_loop w) (shutdown_requested w)).

Definition lookup_object (id : nat) : M (option GstObject) :=
  fun w => (heap w !! id, w).

Definition update_object (id : nat) (f : GstObject -> GstObject) : M unit :=
  modify (fun w => set_heap (alter f id (heap w)) w).

Definition alloc (o : GstObject) : M nat :=
  fun w => (next_id w,
            mkWorld (<[next_id w := o]> (heap w)) (S (next_id w)) (console w)
                    (pipeline w) (main_loop w) (shutdown_requested w)).

(** Dropping one reference of an object without children. *)
Definition unref_leaf (id : nat) (h : gmap nat GstObject) : gmap nat GstObject :=
  match h !! id with
  | Some o =>
      if decide (refcount o <= 1) then delete id h
      else <[id := with_refcount (refcount o - 1) (floating o) o]> h
  | None => h
  end.

(** [gst_object_unref]: the last reference disposes the object, and a bin
    that is disposed drops the reference it holds on each child (the bins
    built here contain plain elements only). *)
Definition gst_object_unref (id : nat) : M unit :=
  modify (fun w =>
    match heap w !! id with
    | Some o =>
        if decide (refcount o <= 1)
        then set_heap (foldr unref_leaf (delete id (heap w)) (children o)) w
        else set_heap (<[id := with_refcount (refcount o - 1) (floating o) o]> (heap w)) w
    | None => w
    end).

Definition g_object_set (id : nat) (ps : list (string * GValue)) : M unit :=
  update_object id (with_props ps).

(** [gst_bin_add]: the bin takes the floating reference of the element, or
    a new one when the reference was already sunk. *)
Definition gst_bin_add (bin el : nat) : M unit :=
  update_object el (fun o => if floating o then with_refcount (refcount o) false o
                             else with_refcount (S (refcount o)) false o) ;;
  update_object bin (with_child el).

Fixpoint gst_bin_add_many (bin : nat) (els : list nat) : M unit :=
  match els with
  | [] => mret tt
  | el :: rest => gst_bin_add bin el ;; gst_bin_add_many bin rest
  end.

Definition g_signal_connect (id : nat) (signal : string) (data : nat) : M unit :=
  update_object id (with_handler (signal, data)).

(** [gst_element_set_state] records the requested state; what the engine
    answers is not decided by the program. *)
Definition gst_element_set_state (id : nat) (st : GstState) : M unit :=
  update_object id (with_target_state st).

Definition requested_state (id : nat) (w : World) : option GstState :=
  target_state <$> heap w !! id.

(** ** Messages, pads and what the engine reports *)

Inductive GstMessage :=
| GST_MESSAGE_ERROR (src : nat) (err_message : string) (debug_info : option string)
| GST_MESSAGE_WARNING (src : nat) (err_message : string) (debug_info : option string)
| GST_MESSAGE_EOS
| GST_MESSAGE_STATE_CHANGED (src : nat) (old_state new_state pending_state : GstState)
| GST_MESSAGE_BUFFERING (percent : Z)
| GST_MESSAGE_ELEMENT (structure_name : option string)
| GST_MESSAGE_OTHER.

Definition GstStructure : Type := string * list (string * GValue).

Definition GstCaps : Type := list GstStructure.

Inductive GstPadLinkReturn :=
| GST_PAD_LINK_OK
| GST_PAD_LINK_WRONG_HIERARCHY
| GST_PAD_LINK_WAS_LINKED
| GST_PAD_LINK_WRONG_DIRECTION
| GST_PAD_LINK_NOFORMAT
| GST_PAD_LINK_NOSCHED
| GST_PAD_LINK_REFUSED.

Definition pad_link_code (ret : GstPadLinkReturn) : Z :=
  match ret with
  | GST_PAD_LINK_OK => 0
  | GST_PAD_LINK_WRONG_HIERARCHY => -1
  | GST_PAD_LINK_WAS_LINKED => -2
  | GST_PAD_LINK_WRONG_DIRECTION => -3
  | GST_PAD_LINK_NOFORMAT => -4
  | GST_PAD_LINK_NOSCHED => -5
  | GST_PAD_LINK_REFUSED => -6
  end.

Definition GST_PAD_LINK_FAILED (ret : GstPadLinkReturn) : bool :=
  (pad_link_code ret <? 0)%Z.

(** A pad announced by the source.  [link_return] is the engine's verdict
    on binding this pad to a free depayloader sink pad. *)
Record GstPad := mkPad {
  pad_name : string;
  current_caps : option GstCaps;
  query_caps : GstCaps;
  link_return : GstPadLinkReturn
}.

(** A call of one of the program's handlers while the main loop runs: the
    bus watch with a message, [pad-added] of an element with a pad, the
    signal handler, the [media-configure] hook. *)
Inductive Event :=
| EvBus (message : GstMessage)
| EvPadAdded (element : nat) (pad : GstPad)
| EvSignal (signum : Z)
| EvMediaConfigure.

(** The answers of the engine and of the serving library that the program
    depends on. *)
Record Env := mkEnv {
  env_registry : GstRegistry;
  can_make : string -> bool;
  pipeline_new_ok : bool;
  can_link : string -> string -> bool;
  server_new_ok : bool;
  attach_id : nat;
  playing_return : GstStateChangeReturn;
  events : list Event
}.

Definition gst_element_factory_make (env : Env) (factory name : string) : M (option nat) :=
  if can_make env factory then id ← alloc (new_object true factory name); mret (Some id)
  else mret None.

Definition gst_pipeline_new (env : Env) (name : string) : M (option nat) :=
  if pipeline_new_ok env then id ← alloc (new_object true "pipeline" name); mret (Some id)
  else mret None.

Definition gst_element_link (env : Env) (src dest : nat) : M bool :=
  a ← lookup_object src;
  b ← lookup_object dest;
  match a, b with
  | Some a, Some b =>
      if can_link env (factory_name a) (factory_name b)
      then update_object dest (with_sink_peer (Some (object_name a))) ;; mret true
      else mret false
  | _, _ => mret false
  end.

Fixpoint gst_element_link_many (env : Env) (first : nat) (rest : list nat) : M bool :=
  match rest with
  | [] => mret true
  | next :: rest' =>
      ok ← gst_element_link env first next;
      if (ok : bool) then gst_element_link_many env next rest' else mret false
  end.

Definition gst_pad_is_linked (sink_element : nat) : M bool :=
  o ← lookup_object sink_element;
  mret (match o with
        | Some o => bool_decide (is_Some (sink_peer o))
        | None => false
        end).

Definition gst_pad_link (pad : GstPad) (sink_element : nat) : M GstPadLinkReturn :=
  linked ← gst_pad_is_linked sink_element;
  if (linked : bool) then mret GST_PAD_LINK_WAS_LINKED
  else match link_return pad with
       | GST_PAD_LINK_OK =>
           update_object sink_element (with_sink_peer (Some (pad_name pad))) ;;
           mret GST_PAD_LINK_OK
       | ret => mret ret
       end.

Fixpoint field_lookup (field : string) (fields : list (string * GValue)) : option GValue :=
  match fields with
  | [] => None
  | (k, v) :: rest => if String.eqb k field then Some v else field_lookup field rest
  end.

(** [gst_structure_get_string]: NULL unless the field exists and holds a
    string (also NULL on a NULL structure). *)
Definition gst_structure_get_string (structure : option GstStructure) (field : string)
  : option string :=
  match structure with
  | Some (_, fields) =>
      match field_lookup field fields with
      | Some (GString v) => Some v
      | _ => None
      end
  | None => None
  end.

Definition gst_caps_get_structure (caps : GstCaps) (index : nat) : option GstStructure :=
  caps !! index.

(** The engine's serialisation of caps, kept to the structure names. *)
Definition gst_caps_to_string (caps : GstCaps) : string :=
  String.concat "; " (map fst caps).

Definition g_strcmp0 (a b : string) : Z :=
  if String.eqb a b then 0 else 1.

Definition object_name_of (id : nat) : M string :=
  o ← lookup_object id;
  mret (match o with Some o => object_name o | None => "" end).

(** ** Pad added callback for dynamic pads (rtspsrc) *)

Definition on_pad_added (element : nat) (pad : GstPad) (data : nat) : M unit :=
  let depay := data in
  let caps := match current_caps pad with
              | Some caps => caps
              | None => query_caps pad
              end in
  let caps_str := gst_caps_to_string caps in
  element_name ← object_name_of element;
  emit (g_print "Received new pad '%s' from '%s' with caps: %s\n"
                [GString (pad_name pad); GString element_name; GString caps_str]) ;;
  let structure := gst_caps_get_structure caps 0 in
  let media := gst_structure_get_string structure "media" in
  let encoding := gst_structure_get_string structure "encoding-name" in
  match media, encoding with
  | Some media, Some encoding =>
      if (g_strcmp0 media "video" =? 0)%Z && (g_strcmp0 encoding "H264" =? 0)%Z then
        linked ← gst_pad_is_linked depay;
        if negb linked then
          ret ← gst_pad_link pad depay;
          if GST_PAD_LINK_FAILED ret
          then emit (g_printerr "Failed to link pads: %d\n" [GInt (pad_link_code ret)])
          else emit (g_print "✓ Successfully linked RTSP source to depayloader\n" [])
        else mret tt
      else mret tt
  | _, _ => mret tt
  end.

(** ** Create the input pipeline for ring buffer *)

Definition GST_SECOND : Z := 1000000000.

Definition guint64 (z : Z) : Z := (z mod 2 ^ 64)%Z.

Definition unref_if_set (o : option nat) : M unit :=
  match o with
  | Some id => gst_object_unref id
  | None => mret tt
  end.

Definition create_input_pipeline (env : Env) (config : ReplayConfig) (hw_type : HWAccelType)
  : M (option nat) :=
  pipeline_elem ← gst_pipeline_new env "input-pipeline";
  match pipeline_elem with
  | None => emit (g_printerr "Failed to create input pipeline\n" []) ;; mret None
  | Some pipeline_elem =>
      rtspsrc ← gst_element_factory_make env "rtspsrc" "source";
      depay ← gst_element_factory_make env "rtph264depay" "depay";
      parse ← gst_element_factory_make env "h264parse" "parse";
      queue_buffer ← gst_element_factory_make env "queue2" "ring-buffer";
      filesink ← gst_element_factory_make env "filesink" "output";
      match rtspsrc, depay, parse, queue_buffer, filesink with
      | Some rtspsrc', Some depay', Some parse', Some queue_buffer', Some filesink' =>
          g_object_set rtspsrc'
            [("location", GString (input_rtsp_url config));
             ("latency", GInt 2000);
             ("protocols", GInt 4);
             ("buffer-mode", GInt 1)] ;;
          let max_size_time := guint64 (guint64 (buffer_seconds config) * GST_SECOND) in
          let ring_buffer_max_size := 1000000000%Z in
          g_object_set queue_buffer'
            [("max-size-time", GInt max_size_time);
             ("ring-buffer-max-size", GInt ring_buffer_max_size);
             ("use-buffering", GBool true);
             ("temp-template", GNull)] ;;
          g_object_set filesink' [("location", GString "/tmp/replay-buffer.h264")] ;;
          gst_bin_add_many pipeline_elem
            [rtspsrc'; depay'; parse'; queue_buffer'; filesink'] ;;
          linked ← gst_element_link_many env depay' [parse'; queue_buffer'; filesink'];
          if negb linked then
            emit (g_printerr "Failed to link pipeline elements\n" []) ;;
            gst_object_unref pipeline_elem ;;
            mret None
          else
            g_signal_connect rtspsrc' "pad-added" depay' ;;
            emit (g_print "✓ Input pipeline created successfully\n" []) ;;
            mret (Some pipeline_elem)
      | _, _, _, _, _ =>
          emit (g_printerr "Failed to create pipeline elements\n" []) ;;
          unref_if_set rtspsrc ;;
          unref_if_set depay ;;
          unref_if_set parse ;;
          unref_if_set queue_buffer ;;
          unref_if_set filesink ;;
          gst_object_unref pipeline_elem ;;
          mret None
      end
  end.

(** ** Signal handler and bus message callback *)

Definition g_main_loop_quit : M unit :=
  modify (fun w => mkWorld (heap w) (next_id w) (console w) (pipeline w)
                           (match main_loop w with
                            | Some _ => Some true
                            | None => None
                            end)
                           (shutdown_requested w)).

Definition signal_handler (signum : Z) : M unit :=
  emit (g_print "\nReceived signal %d, shutting down...\n" [GInt signum]) ;;
  modify (fun w => mkWorld (heap w) (next_id w) (console w) (pipeline w)
                           (main_loop w) true) ;;
  g_main_loop_quit.

Definition gst_element_state_get_name (st : GstState) : string :=
  match st with
  | GST_STATE_VOID_PENDING => "VOID_PENDING"
  | GST_STATE_NULL => "NULL"
  | GST_STATE_READY => "READY"
  | GST_STATE_PAUSED => "PAUSED"
  | GST_STATE_PLAYING => "PLAYING"
  end.

(** A state request on the global [pipeline]. *)
Definition set_pipeline_state (st : GstState) : M unit :=
  w ← get_world;
  match pipeline w with
  | Some p => gst_element_set_state p st
  | None => mret tt
  end.

Definition bus_callback (message : GstMessage) : M bool :=
  match message with
  | GST_MESSAGE_ERROR src err_message debug_info =>
      name ← object_name_of src;
      emit (g_printerr "ERROR from element %s: %s\n" [GString name; GString err_message]) ;;
      emit (g_printerr "Debugging info: %s\n" [GString (default "none" debug_info)]) ;;
      g_main_loop_quit
  | GST_MESSAGE_WARNING src err_message debug_info =>
      name ← object_name_of src;
      emit (g_printerr "WARNING from element %s: %s\n" [GString name; GString err_message]) ;;
      emit (g_printerr "Debugging info: %s\n" [GString (default "none" debug_info)])
  | GST_MESSAGE_EOS =>
      emit (g_print "End-Of-Stream reached.\n" []) ;;
      g_main_loop_quit
  | GST_MESSAGE_STATE_CHANGED src old_state new_state pending_state =>
      w ← get_world;
      if bool_decide (Some src = pipeline w) then
        emit (g_print "Pipeline state changed from %s to %s\n"
                      [GString (gst_element_state_get_name old_state);
                       GString (gst_element_state_get_name new_state)])
      else mret tt
  | GST_MESSAGE_BUFFERING percent =>
      emit (g_print "Buffering: %d%%\r" [GInt percent]) ;;
      if (percent <? 100)%Z then set_pipeline_state GST_STATE_PAUSED
      else set_pipeline_state GST_STATE_PLAYING
  | GST_MESSAGE_ELEMENT structure_name => mret tt
  | GST_MESSAGE_OTHER => mret tt
  end ;;
  mret true.

(** ** RTSP media factory and server *)

Definition media_configure_callback : M unit :=
  emit (g_print "Configuring RTSP media for new client\n" []).

Definition GST_RTSP_LOWER_TRANS_TCP : Z := 4.

(** The launch description handed to the factory. *)
Definition pipeline_str (hw_type : HWAccelType) : string :=
  if decide (hw_type = HW_ACCEL_NVIDIA) then
    "( filesrc location=/tmp/replay-buffer.h264 ! " ++
    "h264parse ! nvh264dec ! nvh264enc bitrate=4000 ! " ++
    "h264parse ! rtph264pay name=pay0 pt=96 config-interval=1 )"
  else if decide (hw_type = HW_ACCEL_VAAPI) then
    "( filesrc location=/tmp/replay-buffer.h264 ! " ++
    "h264parse ! vaapih264dec ! vaapih264enc bitrate=4000 ! " ++
    "h264parse ! rtph264pay name=pay0 pt=96 config-interval=1 )"
  else
    "( filesrc location=/tmp/replay-buffer.h264 ! " ++
    "h264parse ! avdec_h264 ! x264enc bitrate=4000 tune=zerolatency ! " ++
    "h264parse ! rtph264pay name=pay0 pt=96 config-interval=1 )".

Definition gst_rtsp_server_new (env : Env) : M (option nat) :=
  if server_new_ok env then id ← alloc (new_object false "GstRTSPServer" ""); mret (Some id)
  else mret None.

Definition create_rtsp_server (env : Env) (config : ReplayConfig) (hw_type : HWAccelType)
  : M (option nat) :=
  server ← gst_rtsp_server_new env;
  match server with
  | None => emit (g_printerr "Failed to create RTSP server\n" []) ;; mret None
  | Some server =>
      let port_str := pretty (output_rtsp_port config) in
      g_object_set server [("service", GString port_str)] ;;
      let decoder := get_decoder_element hw_type in
      let encoder := get_encoder_element hw_type in
      let factory :=
        {| launch := pipeline_str hw_type;
           shared := true;
           enable_rtcp := true;
           protocols := GST_RTSP_LOWER_TRANS_TCP;
           media_configure := true |} in
      update_object server (with_mount (output_mount_point config, factory)) ;;
      emit (g_print "✓ RTSP server mounted at rtsp://localhost:%d%s\n"
                    [GInt (output_rtsp_port config); GString (output_mount_point config)]) ;;
      mret (Some server)
  end.

(** The element factories named by a launch description: the first word
    of every [!]-separated segment, brackets aside. *)
Fixpoint split_on (sep : ascii) (s : string) : list string :=
  match s with
  | EmptyString => [EmptyString]
  | String c rest =>
      if Ascii.eqb c sep then EmptyString :: split_on sep rest
      else match split_on sep rest with
           | [] => [String c EmptyString]
           | w :: ws => String c w :: ws
           end
  end.

Definition first_word (segment : string) : option string :=
  head (filter (fun w => w <> "" /\ w <> "(" /\ w <> ")") (split_on " "%char segment)).

Definition launch_elements (description : string) : list string :=
  omap first_word (split_on "!"%char description).

(** ** Parse command line arguments *)

Inductive exception :=
| invalid_argument
| out_of_range.

Inductive Throws (A : Type) :=
| Return (a : A)
| Throw (e : exception).

Arguments Return {A} a.
Arguments Throw {A} e.

Definition INT_MIN : Z := -2147483648.
Definition INT_MAX : Z := 2147483647.

Definition isspace (c : ascii) : bool :=
  let n := nat_of_ascii c in
  (n =? 32)%nat || ((9 <=? n)%nat && (n <=? 13)%nat).

Definition digit_value (c : ascii) : option Z :=
  let n := nat_of_ascii c in
  if (48 <=? n)%nat && (n <=? 57)%nat then Some (Z.of_nat n - 48)%Z else None.

Fixpoint skip_spaces (s : string) : string :=
  match s with
  | String c rest => if isspace c then skip_spaces rest else s
  | EmptyString => s
  end.

(** The longest run of decimal digits at the front, [None] when empty. *)
Fixpoint leading_digits (s : string) (acc : option Z) : option Z :=
  match s with
  | String c rest =>
      match digit_value c with
      | Some d => leading_digits rest (Some (10 * default 0 acc + d))%Z
      | None => acc
      end
  | EmptyString => acc
  end.

(** [std::stoi] in base 10: leading white space, an optional sign, then as
    many digits as there are; it throws when there is no digit or when the
    value does not fit an [int]. *)
Definition stoi (s : string) : Throws Z :=
  let s := skip_spaces s in
  let '(negative, digits) :=
    match s with
    | String "-" rest => (true, rest)
    | String "+" rest => (false, rest)
    | _ => (false, s)
    end in
  match leading_digits digits None with
  | None => Throw invalid_argument
  | Some v =>
      let v := if negative then (- v)%Z else v in
      if (INT_MIN <=? v)%Z && (v <=? INT_MAX)%Z then Return v else Throw out_of_range
  end.

Definition set_input_rtsp_url (v : string) (c : ReplayConfig) : ReplayConfig :=
  mkReplayConfig v (buffer_seconds c) (output_rtsp_port c) (use_hardware_accel c)
                 (gpu_id c) (output_mount_point c).

Definition set_buffer_seconds (v : Z) (c : ReplayConfig) : ReplayConfig :=
  mkReplayConfig (input_rtsp_url c) v (output_rtsp_port c) (use_hardware_accel c)
                 (gpu_id c) (output_mount_point c).

Definition set_output_rtsp_port (v : Z) (c : ReplayConfig) : ReplayConfig :=
  mkReplayConfig (input_rtsp_url c) (buffer_seconds c) v (use_hardware_accel c)
                 (gpu_id c) (output_mount_point c).

Definition set_use_hardware_accel (v : bool) (c : ReplayConfig) : ReplayConfig :=
  mkReplayConfig (input_rtsp_url c) (buffer_seconds c) (output_rtsp_port c) v
                 (gpu_id c) (output_mount_point c).

Definition set_gpu_id (v : Z) (c : ReplayConfig) : ReplayConfig :=
  mkReplayConfig (input_rtsp_url c) (buffer_seconds c) (output_rtsp_port c)
                 (use_hardware_accel c) v (output_mount_point c).

Definition set_output_mount_point (v : string) (c : ReplayConfig) : ReplayConfig :=
  mkReplayConfig (input_rtsp_url c) (buffer_seconds c) (output_rtsp_port c)
                 (use_hardware_accel c) (gpu_id c) v.

Definition cout (text : string) (args : list GValue) : Output :=
  mkOutput Stdout text args.

Definition help_text (argv0 : string) : list Output :=
  [ cout "GStreamer Instant Replay Software v1.0.0\n\n" [];
    cout "Usage: %s [OPTIONS]\n\n" [GString argv0];
    cout "Options:\n" [];
    cout "  -i, --input <url>      Input RTSP URL (required)\n" [];
    cout "  -b, --buffer <sec>     Buffer duration in seconds (default: 60)\n" [];
    cout "  -p, --port <port>      Output RTSP server port (default: 8554)\n" [];
    cout "  -m, --mount <path>     RTSP mount point (default: /replay)\n" [];
    cout "  --no-hw                Disable hardware acceleration\n" [];
    cout "  --gpu <id>             GPU device ID for NVIDIA (default: 0)\n" [];
    cout "  -h, --help             Show this help message\n\n" [];
    cout "Example:\n" [];
    cout "  %s -i rtsp://camera:554/stream -b 60 -p 8554\n" [GString argv0] ].

Fixpoint emit_all (os : list Output) : M unit :=
  match os with
  | [] => mret tt
  | o :: rest => emit o ;; emit_all rest
  end.

Definition is_help (arg : string) : bool :=
  String.eqb arg "-h" || String.eqb arg "--help".

(** The [for] loop of [parse_arguments] over [argv[i..]].  An option that
    takes a value matches only when a next argument exists ([i + 1 < argc]);
    the result is the value the function returns from inside the loop, or
    [true] with the configuration when the loop runs to its end. *)
Fixpoint parse_loop (argv0 : string) (args : list string) (config : ReplayConfig)
  : M (Throws (bool * ReplayConfig)) :=
  match args with
  | [] => mret (Return (true, config))
  | arg :: rest =>
      match rest with
      | value :: rest' =>
          if String.eqb arg "-i" || String.eqb arg "--input" then
            parse_loop argv0 rest' (set_input_rtsp_url value config)
          else if String.eqb arg "-b" || String.eqb arg "--buffer" then
            match stoi value with
            | Return n => parse_loop argv0 rest' (set_buffer_seconds n config)
            | Throw e => mret (Throw e)
            end
          else if String.eqb arg "-p" || String.eqb arg "--port" then
            match stoi value with
            | Return n => parse_loop argv0 rest' (set_output_rtsp_port n config)
            | Throw e => mret (Throw e)
            end
          else if String.eqb arg "--no-hw" then
            parse_loop argv0 rest (set_use_hardware_accel false config)
          else if String.eqb arg "--gpu" then
            match stoi value with
            | Return n => parse_loop argv0 rest' (set_gpu_id n config)
            | Throw e => mret (Throw e)
            end
          else if String.eqb arg "-m" || String.eqb arg "--mount" then
            parse_loop argv0 rest' (set_output_mount_point value config)
          else if is_help arg then
            emit_all (help_text argv0) ;; mret (Return (false, config))
          else
            emit (g_printerr "Unknown argument: %s\n" [GString arg]) ;;
            mret (Return (false, config))
      | [] =>
          if String.eqb arg "--no-hw" then
            parse_loop argv0 rest (set_use_hardware_accel false config)
          else if is_help arg then
            emit_all (help_text argv0) ;; mret (Return (false, config))
          else
            emit (g_printerr "Unknown argument: %s\n" [GString arg]) ;;
            mret (Return (false, config))
      end
  end.

Definition parse_arguments (argv : list string) (config : ReplayConfig)
  : M (Throws (bool * ReplayConfig)) :=
  r ← parse_loop (default "" (head argv)) (tail argv) config;
  match r with
  | Return (true, config) =>
      if String.eqb (input_rtsp_url config) "" then
        emit (g_printerr "Error: Input RTSP URL is required (use -i or --input)\n" []) ;;
        mret (Return (false, config))
      else mret (Return (true, config))
  | other => mret other
  end.

(** ** Check required plugins *)

Definition required_plugins : list string :=
  ["rtsp"; "rtp"; "rtpmanager"; "coreelements"; "playback"; "videoparsersbad"; "libav"].

Fixpoint check_plugins_from (registry : GstRegistry) (names : list string) (all_found : bool)
  : M bool :=
  match names with
  | [] => mret all_found
  | name :: rest =>
      if gst_registry_find_plugin registry name then
        emit (g_print "  ✓ %s\n" [GString name]) ;;
        check_plugins_from registry rest all_found
      else
        emit (g_printerr "  ✗ %s (MISSING)\n" [GString name]) ;;
        check_plugins_from registry rest false
  end.

Definition check_required_plugins (registry : GstRegistry) : M bool :=
  emit (g_print "Checking required GStreamer plugins:\n" []) ;;
  check_plugins_from registry required_plugins true.

(** ** The main loop

    While [g_main_loop_run] executes, the handlers of the program are called
    from several places: the bus watch by the loop itself, [pad-added] by the
    streaming thread of the source, [media-configure] by the serving library
    for a client, the signal handler whenever a signal arrives.  [events]
    lists these calls in the order in which they take effect, each call taken
    as a whole, up to the call that makes the loop quit: the loop then
    returns, and what the list holds after that call is not part of the run.
    Handler calls that other threads make once the loop has returned, while
    [main] cleans up, are outside the model.  [g_main_loop_run] answers
    [true] when it returned and [false] when every call was made and the loop
    is still waiting. *)

Fixpoint emit_pad_added (element : nat) (pad : GstPad) (hs : list (string * nat)) : M unit :=
  match hs with
  | [] => mret tt
  | (signal, data) :: rest =>
      (if String.eqb signal "pad-added" then on_pad_added element pad data else mret tt) ;;
      emit_pad_added element pad rest
  end.

Definition dispatch (e : Event) : M unit :=
  match e with
  | EvBus message => bus_callback message ;; mret tt
  | EvPadAdded element pad =>
      o ← lookup_object element;
      match o with
      | Some o => emit_pad_added element pad (handlers o)
      | None => mret tt
      end
  | EvSignal signum => signal_handler signum
  | EvMediaConfigure => media_configure_callback
  end.

Definition g_main_loop_new : M unit :=
  modify (fun w => mkWorld (heap w) (next_id w) (console w) (pipeline w)
                           (Some false) (shutdown_requested w)).

Fixpoint main_loop_iterate (evs : list Event) : M bool :=
  match evs with
  | [] => mret false
  | e :: rest =>
      dispatch e ;;
      w ← get_world;
      if bool_decide (main_loop w = Some true) then mret true
      else main_loop_iterate rest
  end.

Definition g_main_loop_run (evs : list Event) : M bool :=
  main_loop_iterate evs.

(** ** main *)

Inductive Outcome :=
| Exit (code : Z)
| Terminate (e : exception)
| Running.

Definition set_pipeline (p : option nat) : M unit :=
  modify (fun w => mkWorld (heap w) (next_id w) (console w) p
                           (main_loop w) (shutdown_requested w)).

(** [gst_rtsp_server_attach]: 0 when the serving library could not make
    its listening source.  Otherwise the source is attached to the default
    context and keeps a reference of its own on the server for as long as it
    exists; the answer is the identifier of the source. *)
Definition gst_rtsp_server_attach (env : Env) (server : nat) : M nat :=
  if (attach_id env =? 0)%nat then mret 0
  else
    update_object server (fun o => with_refcount (S (refcount o)) (floating o) o) ;;
    mret (attach_id env).

(** [main] after the arguments are parsed, up to the start of the
    pipeline: [None] where [main] returns 1, otherwise the RTSP server and
    the pipeline of the system now up. *)
Definition main_startup (env : Env) (config : ReplayConfig) : M (option (nat * nat)) :=
  plugins_ok ← check_required_plugins (env_registry env);
  if negb plugins_ok then
    emit (g_printerr "\nError: Missing required GStreamer plugins.\n" []) ;;
    emit (g_printerr
      "Please install gstreamer1.0-plugins-{base,good,bad,ugly} and gstreamer1.0-libav\n"
      []) ;;
    mret None
  else
    let '(hw_type, detect_out) := main_hw_type config (env_registry env) in
    emit_all detect_out ;;
    emit (g_print "\n=== Configuration ===\n" []) ;;
    emit (g_print "Input RTSP: %s\n" [GString (input_rtsp_url config)]) ;;
    emit (g_print "Buffer Size: %d seconds\n" [GInt (buffer_seconds config)]) ;;
    emit (g_print "Output Port: %d\n" [GInt (output_rtsp_port config)]) ;;
    emit (g_print "Mount Point: %s\n" [GString (output_mount_point config)]) ;;
    emit (g_print "HW Accel: %s\n"
            [GString (if decide (hw_type <> HW_ACCEL_NONE) then "Enabled"
                      else "Disabled")]) ;;
    emit (g_print "====================\n\n" []) ;;
    created ← create_input_pipeline env config hw_type;
    set_pipeline created ;;
    match created with
    | None => emit (g_printerr "Failed to create pipeline\n" []) ;; mret None
    | Some pipeline =>
        rtsp_server ← create_rtsp_server env config hw_type;
        match rtsp_server with
        | None =>
            emit (g_printerr "Failed to create RTSP server\n" []) ;;
            gst_object_unref pipeline ;;
            mret None
        | Some rtsp_server =>
            server_id ← gst_rtsp_server_attach env rtsp_server;
            if (server_id =? 0)%nat then
              emit (g_printerr "Failed to attach RTSP server\n" []) ;;
              gst_object_unref rtsp_server ;;
              gst_object_unref pipeline ;;
              mret None
            else
              emit (g_print "Starting pipeline...\n" []) ;;
              gst_element_set_state pipeline GST_STATE_PLAYING ;;
              match playing_return env with
              | GST_STATE_CHANGE_FAILURE =>
                  emit (g_printerr "Unable to set pipeline to playing state\n" []) ;;
                  gst_object_unref rtsp_server ;;
                  gst_object_unref pipeline ;;
                  mret None
              | _ => mret (Some (rtsp_server, pipeline))
              end
        end
    end.

(** [main] from the creation of the main loop to its [return 0]. *)
Definition main_run (env : Env) (config : ReplayConfig) (rtsp_server pipeline : nat)
  : M Outcome :=
  emit (g_print "\n✓ System running. Press Ctrl+C to stop.\n" []) ;;
  emit (g_print "Access replay stream at: rtsp://localhost:%d%s\n\n"
          [GInt (output_rtsp_port config); GString (output_mount_point config)]) ;;
  g_main_loop_new ;;
  returned ← g_main_loop_run (events env);
  if (returned : bool) then
    emit (g_print "\nCleaning up...\n" []) ;;
    gst_element_set_state pipeline GST_STATE_NULL ;;
    gst_object_unref pipeline ;;
    gst_object_unref rtsp_server ;;
    emit (g_print "Shutdown complete.\n" []) ;;
    mret (Exit 0)
  else mret Running.

(** [main] once [parse_arguments] has returned or thrown.  An exception of
    [std::stoi] is caught nowhere: it ends the process. *)
Definition main_continue (env : Env) (parsed : Throws (bool * ReplayConfig)) : M Outcome :=
  match parsed with
  | Throw e => mret (Terminate e)
  | Return (false, _) => mret (Exit 1)
  | Return (true, config) =>
      up ← main_startup env config;
      match up with
      | None => mret (Exit 1)
      | Some (rtsp_server, pipeline) => main_run env config rtsp_server pipeline
      end
  end.

(** [argv] is the argument vector as [parse_arguments] receives it, that
    is, as [gst_init] hands it back with the engine's own options taken
    out. *)
Definition main (argv : list string) (env : Env) : M Outcome :=
  emit (g_print "Initializing GStreamer 1.28.0...\n" []) ;;
  parsed ← parse_arguments argv default_config;
  main_continue env parsed.

(** ** Notions the properties are stated with *)

(** The state in which the main loop starts, when [main] gets that far. *)
Definition started (argv : list string) (env : Env) (w : World)
  : option (ReplayConfig * nat * nat * World) :=
  let '(parsed, w1) :=
    (emit (g_print "Initializing GStreamer 1.28.0...\n" []) ;;
     parse_arguments argv default_config) w in
  match parsed with
  | Return (true, config) =>
      match main_startup env config w1 with
      | (Some (rtsp_server, pipeline), w2) => Some (config, rtsp_server, pipeline, w2)
      | (None, _) => None
      end
  | _ => None
  end.

(** The events whose handler calls [g_main_loop_quit]. *)
Definition quits (e : Event) : bool :=
  match e with
  | EvBus (GST_MESSAGE_ERROR _ _ _) => true
  | EvBus GST_MESSAGE_EOS => true
  | EvSignal _ => true
  | _ => false
  end.

(** What is linked into the sink pad of an element. *)
Definition entry_peer (depay : nat) (w : World) : option string :=
  heap w !! depay ≫= sink_peer.

(** The media description the resolver looks for, read off the pad the way
    [on_pad_added] reads it. *)
Definition pad_caps (pad : GstPad) : GstCaps :=
  match current_caps pad with
  | Some caps => caps
  | None => query_caps pad
  end.

Definition pad_media (pad : GstPad) : option string :=
  gst_structure_get_string (gst_caps_get_structure (pad_caps pad) 0) "media".

Definition pad_encoding (pad : GstPad) : option string :=
  gst_structure_get_string (gst_caps_get_structure (pad_caps pad) 0) "encoding-name".

Definition is_h264_video (pad : GstPad) : bool :=
  bool_decide (pad_media pad = Some "video" /\ pad_encoding pad = Some "H264").

(** The conditions under which [on_pad_added] binds a pad to the entry
    point: H.264 video, the entry point free, the link accepted by the
    engine. *)
Definition link_conditions (pad : GstPad) (depay : nat) (w : World) : Prop :=
  is_h264_video pad = true /\ entry_peer depay w = None
  /\ link_return pad = GST_PAD_LINK_OK.

(** How many times a successful link was reported on the console. *)
Definition links_reported (w : World) : nat :=
  length (filter (fun o => out_format o = "✓ Successfully linked RTSP source to depayloader\n")
                 (console w)).

(** The changes of the requested state of [p] while the bus watch handles
    [messages] one after the other: position, state before, state after. *)
Fixpoint requested_transitions (p : nat) (index : nat) (messages : list GstMessage) (w : World)
  : list (nat * option GstState * option GstState) :=
  match messages with
  | [] => []
  | m :: rest =>
      let w' := snd (bus_callback m w) in
      let before := requested_state p w in
      let after := requested_state p w' in
      (if decide (before = after) then [] else [(index, before, after)])
        ++ requested_transitions p (S index) rest w'
  end.

(** Availability of the five elements of the ingest graph, and success of
    the three static links between them. *)
Definition elements_available (env : Env) : bool :=
  can_make env "rtspsrc" && can_make env "rtph264depay" && can_make env "h264parse"
  && can_make env "queue2" && can_make env "filesink".

Definition static_links_ok (env : Env) : bool :=
  can_link env "rtph264depay" "h264parse" && can_link env "h264parse" "queue2"
  && can_link env "queue2" "filesink".

(** No object lives at an identifier the store has not handed out yet. *)
Definition fresh_from (w : World) : Prop :=
  forall k, next_id w <= k -> heap w !! k = None.

(** The value after [--gpu] is read as its value only when [--gpu] itself
    stands where the loop reads an option, not where it reads the value of
    the option before it. *)
Definition takes_value (arg : string) : bool :=
  String.eqb arg "-i" || String.eqb arg "--input" || String.eqb arg "-b"
  || String.eqb arg "--buffer" || String.eqb arg "-p" || String.eqb arg "--port"
  || String.eqb arg "--gpu" || String.eqb arg "-m" || String.eqb arg "--mount".

Fixpoint at_option_position (before : list string) : bool :=
  match before with
  | [] => true
  | arg :: rest =>
      match rest with
      | _ :: rest' =>
          if takes_value arg then at_option_position rest'
          else if String.eqb arg "--no-hw" then at_option_position rest
          else true
      | [] => negb (takes_value arg)
      end
  end.

(** Registries and worlds used as concrete inputs. *)
Definition registry_decoder_only : GstRegistry :=
  mkRegistry {[ "nvh264dec" ]} (list_to_set required_plugins).

Definition registry_all_hardware : GstRegistry :=
  mkRegistry {[ "nvh264dec"; "nvh264enc"; "vaapih264dec"; "vaapih264enc";
                "msdkh264dec"; "msdkh264enc" ]} (list_to_set required_plugins).

Definition registry_msdk : GstRegistry :=
  mkRegistry {[ "msdkh264dec"; "msdkh264enc" ]} (list_to_set required_plugins).

Definition registry_software : GstRegistry :=
  mkRegistry {[ "avdec_h264"; "x264enc" ]} (list_to_set required_plugins).

Definition env_with (registry : GstRegistry) (evs : list Event) : Env :=
  mkEnv registry (fun _ => true) true (fun _ _ => true) true 1 GST_STATE_CHANGE_ASYNC evs.

Definition video_pad : GstPad :=
  mkPad "recv_rtp_src_0_96"
        (Some [("application/x-rtp",
                [("media", GString "video"); ("payload", GInt 96);
                 ("clock-rate", GInt 90000); ("encoding-name", GString "H264")])])
        [] GST_PAD_LINK_OK.

Definition second_video_pad : GstPad :=
  mkPad "recv_rtp_src_1_96" (current_caps video_pad) [] GST_PAD_LINK_OK.

Definition refused_video_pad : GstPad :=
  mkPad "recv_rtp_src_0_96" (current_caps video_pad) [] GST_PAD_LINK_NOFORMAT.

Definition audio_pad : GstPad :=
  mkPad "recv_rtp_src_1_97"
        (Some [("application/x-rtp",
                [("media", GString "audio"); ("payload", GInt 97);
                 ("encoding-name", GString "MPEG4-GENERIC")])])
        [] GST_PAD_LINK_OK.

(** The running system: the state in which the main loop starts for the
    command line [instant-replay -i rtsp://camera:554/stream]. *)
Definition running_world : World :=
  match started ["instant-replay"; "-i"; "rtsp://camera:554/stream"]
                (env_with registry_software []) initial_world with
  | Some (_, _, _, w) => w
  | None => initial_world
  end.

(** The playback graph a client of the server gets: per mount point, the
    element factories of the launch description of its media factory. *)
Definition mounted_elements (result : option nat * World) : list (string * list string) :=
  match result with
  | (Some server, w) =>
      match heap w !! server with
      | Some o => map (fun m => (fst m, launch_elements (launch (snd m)))) (mounts o)
      | None => []
      end
  | (None, _) => []
  end.

(** The state a buffering notification asks for. *)
Definition buffering_target (percent : Z) : GstState :=
  if (percent <? 100)%Z then GST_STATE_PAUSED else GST_STATE_PLAYING.

(** What [on_pad_added] prints first for a pad. *)
Definition received_pad (element_name : string) (pad : GstPad) : Output :=
  g_print "Received new pad '%s' from '%s' with caps: %s\n"
          [GString (pad_name pad); GString element_name;
           GString (gst_caps_to_string (pad_caps pad))].

(** The running system after the source announced [video_pad]. *)
Definition linked_world : World := snd (on_pad_added 1 video_pad 2 running_world).

(** The quit flag of the main loop after [g_main_loop_quit]. *)
Definition quit_flag (ml : option bool) : option bool :=
  match ml with Some _ => Some true | None => None end.

(** A configuration with its GPU number forgotten. *)
Definition erase_gpu (c : ReplayConfig) : ReplayConfig := set_gpu_id 0 c.

Definition erase_result (r : Throws (bool * ReplayConfig)) : Throws (bool * ReplayConfig) :=
  match r with
  | Return (b, c) => Return (b, erase_gpu c)
  | Throw e => Throw e
  end.

(** Two runs agree up to the stored GPU number. *)
Definition agree (r1 r2 : Throws (bool * ReplayConfig) * World) : Prop :=
  erase_result (fst r1) = erase_result (fst r2) /\ snd r1 = snd r2.

(** An environment in which everything succeeds and the source then closes
    the stream. *)
Definition env_end_of_stream : Env :=
  env_with registry_software [EvBus GST_MESSAGE_EOS].

Definition env_runtime_error : Env :=
  env_with registry_software
           [EvBus (GST_MESSAGE_ERROR 1 "Could not open resource for reading." None)].

Definition env_no_ring_buffer : Env :=
  mkEnv registry_software (fun name => negb (String.eqb name "queue2")) true
        (fun _ _ => true) true 1 GST_STATE_CHANGE_ASYNC [EvBus GST_MESSAGE_EOS].

Definition replay_command : list string :=
  ["instant-replay"; "-i"; "rtsp://camera:554/stream"].

(** ** Notions the further properties are stated with *)

(** A state that differs from [w] by what was printed since. *)
Definition with_console (out : list Output) (w : World) : World :=
  mkWorld (heap w) (next_id w) (console w ++ out) (pipeline w) (main_loop w)
          (shutdown_requested w).

(** The line [check_required_plugins] prints for a plugin. *)
Definition plugin_line (registry : GstRegistry) (name : string) : Output :=
  if gst_registry_find_plugin registry name then g_print "  ✓ %s\n" [GString name]
  else g_printerr "  ✗ %s (MISSING)\n" [GString name].

(** The options whose value goes through [std::stoi]. *)
Definition numeric_option (arg : string) : bool :=
  String.eqb arg "-b" || String.eqb arg "--buffer" || String.eqb arg "-p"
  || String.eqb arg "--port" || String.eqb arg "--gpu".

(** A run of arguments the loop reads to its end: each one a known option,
    followed by its value where it takes one, and every number one that
    [std::stoi] accepts. *)
Fixpoint read_through (before : list string) : bool :=
  match before with
  | [] => true
  | arg :: rest =>
      if String.eqb arg "--no-hw" then read_through rest
      else
        match rest with
        | value :: rest' =>
            if numeric_option arg then
              match stoi value with
              | Return _ => read_through rest'
              | Throw _ => false
              end
            else if takes_value arg then read_through rest'
            else false
        | [] => false
        end
  end.

(** An argument the loop knows in no position. *)
Definition unknown_argument (arg : string) : bool :=
  negb (takes_value arg || String.eqb arg "--no-hw" || is_help arg).

(** What the reference counting of an object rests on: its count and the
    children it holds. *)
Definition skeleton (o : GstObject) : nat * list nat :=
  (refcount o, children o).

(** The main loop right after [g_main_loop_new]. *)
Definition loop_created (w : World) : World :=
  snd (g_main_loop_new w).

(** A state with another store of objects and another next identifier. *)
Definition set_store (h : gmap nat GstObject) (n : nat) (w : World) : World :=
  mkWorld h n (console w) (pipeline w) (main_loop w) (shutdown_requested w).

(** The ingest graph as [create_input_pipeline] leaves it when nothing
    fails, built from identifier [n] on: the pipeline, then source,
    depayloader, parser, ring buffer and sink. *)
Definition ingest_graph (config : ReplayConfig) (n : nat) : list (nat * GstObject) :=
  [ (n, mkObject 1 true "pipeline" "input-pipeline" []
                 [S n; S (S n); S (S (S n)); S (S (S (S n))); S (S (S (S (S n))))]
                 None GST_STATE_NULL [] []);
    (S n, mkObject 1 false "rtspsrc" "source"
                   [("location", GString (input_rtsp_url config));
                    ("latency", GInt 2000); ("protocols", GInt 4); ("buffer-mode", GInt 1)]
                   [] None GST_STATE_NULL [("pad-added", S (S n))] []);
    (S (S n), mkObject 1 false "rtph264depay" "depay" [] [] None GST_STATE_NULL [] []);
    (S (S (S n)), mkObject 1 false "h264parse" "parse" [] [] (Some "depay")
                           GST_STATE_NULL [] []);
    (S (S (S (S n))),
     mkObject 1 false "queue2" "ring-buffer"
              [("max-size-time",
                GInt (guint64 (guint64 (buffer_seconds config) * GST_SECOND)));
               ("ring-buffer-max-size", GInt 1000000000);
               ("use-buffering", GBool true); ("temp-template", GNull)]
              [] (Some "parse") GST_STATE_NULL [] []);
    (S (S (S (S (S n)))),
     mkObject 1 false "filesink" "output"
              [("location", GString "/tmp/replay-buffer.h264")]
              [] (Some "ring-buffer") GST_STATE_NULL [] []) ].

Fixpoint insert_all (objects : list (nat * GstObject)) (h : gmap nat GstObject)
  : gmap nat GstObject :=
  match objects with
  | [] => h
  | (k, o) :: rest => <[k := o]> (insert_all rest h)
  end.

(** The server object [create_rtsp_server] makes. *)
Definition replay_server (config : ReplayConfig) (hw_type : HWAccelType) : GstObject :=
  mkObject 1 false "GstRTSPServer" ""
           [("service", GString (pretty (output_rtsp_port config)))]
           [] None GST_STATE_NULL []
           [(output_mount_point config,
             mkFactory (pipeline_str hw_type) true true GST_RTSP_LOWER_TRANS_TCP true)].

(** A property of an object, as [g_object_set] left it. *)
Definition object_prop (id : nat) (name : string) (w : World) : option GValue :=
  o ← heap w !! id; field_lookup name (props o).

(** The store of the system once [main_startup] has succeeded from an empty
    store: the ingest graph, the replay server with the second reference
    that its attached source holds, and the pipeline asked to play. *)
Definition running_store (config : ReplayConfig) (hw_type : HWAccelType) (n : nat)
  : gmap nat GstObject :=
  alter (with_target_state GST_STATE_PLAYING) n
        (<[S (S (S (S (S (S n))))) := with_refcount 2 false (replay_server config hw_type)]>
           (insert_all (ingest_graph config n) ∅)).

(* ================================================================= *)
(** * Properties *)

(** ** Capability probe and element selector *)

Section Probe.

Variable registry : GstRegistry.

Lemma detect_cases :
  let hw := fst (detect_hardware_accel registry) in
  (hw = HW_ACCEL_NVIDIA /\ present registry HW_ACCEL_NVIDIA = true)
  \/ (hw = HW_ACCEL_VAAPI /\ present registry HW_ACCEL_NVIDIA = false
      /\ present registry HW_ACCEL_VAAPI = true)
  \/ (hw = HW_ACCEL_MSDK /\ present registry HW_ACCEL_NVIDIA = false
      /\ present registry HW_ACCEL_VAAPI = false
      /\ present registry HW_ACCEL_MSDK = true)
  \/ (hw = HW_ACCEL_NONE /\ present registry HW_ACCEL_NVIDIA = false
      /\ present registry HW_ACCEL_VAAPI = false
      /\ present registry HW_ACCEL_MSDK = false).
Proof.
  unfold detect_hardware_accel, present; simpl.
  destruct (gst_registry_lookup_feature registry "nvh264dec"); [tauto|].
  destruct (gst_registry_lookup_feature registry "vaapih264dec"); [tauto|].
  destruct (gst_registry_lookup_feature registry "msdkh264dec"); tauto.
Qed.

(** The probe answers with a present backend that no present backend
    precedes in the preference list. *)
Lemma detect_first_match :
  let hw := fst (detect_hardware_accel registry) in
  present registry hw = true
  /\ forall b, present registry b = true -> priority hw <= priority b.
Proof.
  destruct detect_cases as [[-> H]|[[-> [H1 H2]]|[[-> [H1 [H2 H3]]]|[-> [H1 [H2 H3]]]]]];
    (split; [assumption || reflexivity|]);
    intros [] Hb; simpl; try lia; congruence.
Qed.

End Probe.

Lemma priority_inj (a b : HWAccelType) : priority a = priority b -> a = b.
Proof. destruct a, b; simpl; intros; congruence || lia. Qed.

Lemma codec_pair_inj (a b : HWAccelType) : codec_pair a = codec_pair b -> a = b.
Proof. destruct a, b; unfold codec_pair; simpl; intros H; congruence. Qed.

(** C1, as amended.  The probe records one backend, not one for decode and
    one for encode: it is the first backend of the preference list whose
    decoder feature the registry holds.  Decoder and encoder are then both
    named after that backend, and whenever the backend is a hardware one the
    selected decoder is a feature of the registry.  Nothing is said about
    the encoder, which the probe never looks up. *)
Theorem C1_probe_records_first_decoder_match (registry : GstRegistry) :
  let hw := fst (detect_hardware_accel registry) in
  present registry hw = true
  /\ (forall b, present registry b = true -> priority hw <= priority b)
  /\ select registry = (get_decoder_element hw, get_encoder_element hw)
  /\ (hw <> HW_ACCEL_NONE ->
      gst_registry_lookup_feature registry (fst (select registry)) = true).
Proof.
  intros hw.
  destruct (detect_first_match registry) as [Hp Hmin].
  fold hw in Hp, Hmin.
  repeat split; try assumption.
  intros Hhw. unfold select, codec_pair. fold hw. simpl.
  destruct hw; simpl in *; congruence.
Qed.

(** C1 fails as stated: with the NVIDIA decoder registered and the NVIDIA
    encoder missing, the hardware pair is returned although the registry
    does not hold the selected encoder. *)
Lemma C1_encoder_is_not_probed :
  fst (detect_hardware_accel registry_decoder_only) = HW_ACCEL_NVIDIA
  /\ select registry_decoder_only = ("nvh264dec", "nvh264enc")
  /\ gst_registry_lookup_feature registry_decoder_only
       (snd (select registry_decoder_only)) = false
  /\ supports_pair registry_decoder_only
       (fst (detect_hardware_accel registry_decoder_only)) = false.
Proof. vm_compute. repeat split; reflexivity. Qed.

(** C6.  When the probe finds none of the three hardware backends, the
    detected type is [HW_ACCEL_NONE], the selected pair is the software
    decoder [avdec_h264] with the software encoder [x264enc], and this is
    also what [main] works with and what the replay server is given. *)
Theorem C6_no_hardware_selects_software (registry : GstRegistry) :
  present registry HW_ACCEL_NVIDIA = false ->
  present registry HW_ACCEL_VAAPI = false ->
  present registry HW_ACCEL_MSDK = false ->
  select registry = ("avdec_h264", "x264enc")
  /\ (forall config, codec_pair (fst (main_hw_type config registry))
                     = ("avdec_h264", "x264enc"))
  /\ launch_elements (pipeline_str (fst (detect_hardware_accel registry)))
     = ["filesrc"; "h264parse"; "avdec_h264"; "x264enc"; "h264parse"; "rtph264pay"].
Proof.
  intros Hn Hv Hm.
  assert (Hd : fst (detect_hardware_accel registry) = HW_ACCEL_NONE).
  { destruct (detect_cases registry) as [[_ H]|[[_ [_ H]]|[[_ [_ [_ H]]]|[H _]]]];
      congruence. }
  split; [unfold select; rewrite Hd; reflexivity|].
  split; [|rewrite Hd; vm_compute; reflexivity].
  intros config. unfold main_hw_type.
  destruct (use_hardware_accel config); [rewrite Hd|]; reflexivity.
Qed.

(** A registry that holds the software codecs only. *)
Lemma C6_no_hardware_witness :
  select registry_software = ("avdec_h264", "x264enc")
  /\ (forall config, codec_pair (fst (main_hw_type config registry_software))
                     = ("avdec_h264", "x264enc"))
  /\ launch_elements (pipeline_str (fst (detect_hardware_accel registry_software)))
     = ["filesrc"; "h264parse"; "avdec_h264"; "x264enc"; "h264parse"; "rtph264pay"].
Proof.
  apply (C6_no_hardware_selects_software registry_software); vm_compute; reflexivity.
Defined.

(** C7, as amended.  With X before Y in the preference list and both
    present, selection never returns the pair of Y; it returns the pair of X
    when no backend before X is present (otherwise the earlier backend
    wins). *)
Theorem C7_higher_priority_wins (registry : GstRegistry) (X Y : HWAccelType) :
  present registry X = true ->
  present registry Y = true ->
  priority X < priority Y ->
  select registry <> codec_pair Y
  /\ ((forall Z, priority Z < priority X -> present registry Z = false) ->
      select registry = codec_pair X).
Proof.
  intros HX HY Hlt.
  destruct (detect_first_match registry) as [Hp Hmin]. simpl in Hp, Hmin.
  unfold select. split.
  - intros Heq. apply codec_pair_inj in Heq.
    specialize (Hmin X HX). rewrite Heq in Hmin. lia.
  - intros Hnone. f_equal. apply priority_inj.
    specialize (Hmin X HX).
    destruct (decide (priority (fst (detect_hardware_accel registry)) < priority X)) as [Hl|Hl];
      [|lia].
    apply Hnone in Hl. congruence.
Qed.

(** NVIDIA before VAAPI, in a registry that holds every backend. *)
Lemma C7_higher_priority_witness :
  select registry_all_hardware <> codec_pair HW_ACCEL_VAAPI
  /\ ((forall Z, priority Z < priority HW_ACCEL_NVIDIA ->
                 present registry_all_hardware Z = false) ->
      select registry_all_hardware = codec_pair HW_ACCEL_NVIDIA).
Proof.
  apply (C7_higher_priority_wins registry_all_hardware HW_ACCEL_NVIDIA HW_ACCEL_VAAPI);
    [vm_compute; reflexivity | vm_compute; reflexivity | simpl; lia].
Defined.

(** C7 fails as stated: with all three hardware backends present, VAAPI
    comes before MSDK and both are present, yet selection returns the
    NVIDIA pair, not the VAAPI pair. *)
Lemma C7_third_backend_wins :
  present registry_all_hardware HW_ACCEL_VAAPI = true
  /\ present registry_all_hardware HW_ACCEL_MSDK = true
  /\ priority HW_ACCEL_VAAPI < priority HW_ACCEL_MSDK
  /\ select registry_all_hardware = codec_pair HW_ACCEL_NVIDIA
  /\ select registry_all_hardware <> codec_pair HW_ACCEL_VAAPI.
Proof.
  split; [vm_compute; reflexivity|].
  split; [vm_compute; reflexivity|].
  split; [simpl; lia|].
  assert (H : select registry_all_hardware = codec_pair HW_ACCEL_NVIDIA)
    by (vm_compute; reflexivity).
  split; [exact H|]. rewrite H. discriminate.
Qed.

(** ** Replay server *)

(** The factory mounted by [create_rtsp_server] carries the launch
    description [pipeline_str] of the hardware type it was called with. *)
Lemma create_rtsp_server_mounts (env : Env) (config : ReplayConfig)
      (hw_type : HWAccelType) (w : World) :
  server_new_ok env = true ->
  mounted_elements (create_rtsp_server env config hw_type w)
  = [(output_mount_point config, launch_elements (pipeline_str hw_type))].
Proof.
  intros Hok. unfold create_rtsp_server, gst_rtsp_server_new. rewrite Hok.
  destruct w as [h n out p ml sr]. simpl.
  unfold mounted_elements. simpl.
  rewrite !lookup_alter_eq, lookup_insert_eq. reflexivity.
Qed.

(** For NVIDIA, VAAPI and software the playback graph decodes and encodes
    with the pair the element selector gives for that backend. *)
Lemma pipeline_str_uses_selected_pair (hw_type : HWAccelType) :
  hw_type <> HW_ACCEL_MSDK ->
  launch_elements (pipeline_str hw_type)
  = ["filesrc"; "h264parse"; get_decoder_element hw_type; get_encoder_element hw_type;
     "h264parse"; "rtph264pay"].
Proof. destruct hw_type; intros H; try congruence; vm_compute; reflexivity. Qed.

(** C2, at the input where the code departs from it.  With only the MSDK
    backend in the registry the probe detects MSDK and the selector names
    [msdkh264dec] and [msdkh264enc], but the playback graph mounted by
    [create_rtsp_server] decodes with [avdec_h264] and encodes with
    [x264enc]: the launch description has no branch for MSDK. *)
Theorem C2_msdk_playback_graph_is_software :
  fst (detect_hardware_accel registry_msdk) = HW_ACCEL_MSDK
  /\ codec_pair HW_ACCEL_MSDK = ("msdkh264dec", "msdkh264enc")
  /\ mounted_elements
       (create_rtsp_server (env_with registry_msdk []) default_config HW_ACCEL_MSDK
                           initial_world)
     = [("/replay",
         ["filesrc"; "h264parse"; "avdec_h264"; "x264enc"; "h264parse"; "rtph264pay"])].
Proof. vm_compute. repeat split; reflexivity. Qed.

(** ** Bus watch *)

(** Unfolding of the state-passing plumbing. *)
Ltac run_m :=
  unfold mbind, M_bind, mret, M_ret, emit, modify, get_world, lookup_object,
    update_object, set_heap in *; simpl in *.

Lemma bus_buffering_heap (percent : Z) (w : World) :
  heap (snd (bus_callback (GST_MESSAGE_BUFFERING percent) w))
  = match pipeline w with
    | Some p => alter (with_target_state (buffering_target percent)) p (heap w)
    | None => heap w
    end.
Proof.
  destruct w as [h n out [p|] ml sr];
    unfold buffering_target, bus_callback, set_pipeline_state, gst_element_set_state;
    run_m; destruct (percent <? 100)%Z; reflexivity.
Qed.

Lemma bus_buffering_pipeline (percent : Z) (w : World) :
  pipeline (snd (bus_callback (GST_MESSAGE_BUFFERING percent) w)) = pipeline w.
Proof.
  destruct w as [h n out [p|] ml sr];
    unfold bus_callback, set_pipeline_state, gst_element_set_state;
    run_m; destruct (percent <? 100)%Z; reflexivity.
Qed.

Lemma bus_buffering_requested (percent : Z) (p : nat) (w : World) :
  pipeline w = Some p ->
  is_Some (requested_state p w) ->
  requested_state p (snd (bus_callback (GST_MESSAGE_BUFFERING percent) w))
  = Some (buffering_target percent).
Proof.
  intros Hp [st Hst]. unfold requested_state in *.
  rewrite bus_buffering_heap, Hp, lookup_alter_eq.
  destruct (heap w !! p); [reflexivity | discriminate].
Qed.

(** A second notification with the same percentage leaves every object as
    the first one left it. *)
Lemma bus_buffering_repeat (percent : Z) (w : World) :
  let w1 := snd (bus_callback (GST_MESSAGE_BUFFERING percent) w) in
  heap (snd (bus_callback (GST_MESSAGE_BUFFERING percent) w1)) = heap w1.
Proof.
  intros w1. subst w1.
  rewrite (bus_buffering_heap percent (snd _)), bus_buffering_pipeline, bus_buffering_heap.
  destruct (pipeline w) as [p|]; [|reflexivity].
  apply map_eq. intros k. destruct (decide (p = k)) as [->|Hne].
  - rewrite !lookup_alter_eq. destruct (heap w !! k); reflexivity.
  - rewrite !lookup_alter_ne by done. reflexivity.
Qed.

(** C3.  Starting from a pipeline whose requested state is Playing, the
    buffering percentages 100, 100, 60, 60, 100 change the requested state
    exactly twice: from Playing to Paused at the first 60 (position 2) and
    from Paused to Playing at the last 100 (position 4).  In any state, a
    notification that repeats the percentage of the one before it changes
    neither the requested state nor any other object. *)
Theorem C3_buffering_is_level_triggered (w : World) (p : nat) :
  pipeline w = Some p ->
  requested_state p w = Some GST_STATE_PLAYING ->
  requested_transitions p 0 (map GST_MESSAGE_BUFFERING [100; 100; 60; 60; 100]%Z) w
  = [(2, Some GST_STATE_PLAYING, Some GST_STATE_PAUSED);
     (4, Some GST_STATE_PAUSED, Some GST_STATE_PLAYING)]
  /\ forall (w' : World) (percent : Z),
       let w1 := snd (bus_callback (GST_MESSAGE_BUFFERING percent) w') in
       let w2 := snd (bus_callback (GST_MESSAGE_BUFFERING percent) w1) in
       heap w2 = heap w1 /\ requested_state p w2 = requested_state p w1.
Proof.
  intros Hp Hst. split.
  - assert (step : forall pc w0 st, pipeline w0 = Some p ->
               requested_state p w0 = Some st ->
               let w1 := snd (bus_callback (GST_MESSAGE_BUFFERING pc) w0) in
               pipeline w1 = Some p
               /\ requested_state p w1 = Some (buffering_target pc)).
    { intros pc w0 st H1 H2. split.
      - rewrite bus_buffering_pipeline. exact H1.
      - apply bus_buffering_requested; [exact H1 | rewrite H2; eauto]. }
    cbn [map requested_transitions].
    destruct (step 100%Z _ _ Hp Hst) as [Hp1 Hs1].
    destruct (step 100%Z _ _ Hp1 Hs1) as [Hp2 Hs2].
    destruct (step 60%Z _ _ Hp2 Hs2) as [Hp3 Hs3].
    destruct (step 60%Z _ _ Hp3 Hs3) as [Hp4 Hs4].
    destruct (step 100%Z _ _ Hp4 Hs4) as [Hp5 Hs5].
    rewrite Hs5, Hs4, Hs3, Hs2, Hs1, Hst. reflexivity.
  - intros w' percent w1 w2.
    assert (H : heap w2 = heap w1) by apply bus_buffering_repeat.
    split; [exact H|]. unfold requested_state. rewrite H. reflexivity.
Qed.

(** The running system, whose pipeline is object 0 and was asked to play. *)
Lemma C3_buffering_witness :
  requested_transitions 0 0 (map GST_MESSAGE_BUFFERING [100; 100; 60; 60; 100]%Z)
                        running_world
  = [(2, Some GST_STATE_PLAYING, Some GST_STATE_PAUSED);
     (4, Some GST_STATE_PAUSED, Some GST_STATE_PLAYING)]
  /\ forall (w' : World) (percent : Z),
       let w1 := snd (bus_callback (GST_MESSAGE_BUFFERING percent) w') in
       let w2 := snd (bus_callback (GST_MESSAGE_BUFFERING percent) w1) in
       heap w2 = heap w1 /\ requested_state 0 w2 = requested_state 0 w1.
Proof.
  apply (C3_buffering_is_level_triggered running_world 0); vm_compute; reflexivity.
Defined.

(** ** Dynamic link resolver *)

Lemma is_h264_video_eq (pad : GstPad) :
  is_h264_video pad
  = match pad_media pad, pad_encoding pad with
    | Some media, Some encoding => String.eqb media "video" && String.eqb encoding "H264"
    | _, _ => false
    end.
Proof.
  unfold is_h264_video.
  destruct (pad_media pad) as [m|], (pad_encoding pad) as [e|];
    try (apply bool_decide_eq_false_2; intros [? ?]; congruence).
  destruct (String.eqb_spec m "video") as [->|Hm], (String.eqb_spec e "H264") as [->|He];
    simpl; first [ reflexivity
                 | apply bool_decide_eq_false_2; intros [? ?]; congruence ].
Qed.

(** What one call of [on_pad_added] does to a state in which the
    depayloader exists. *)
Lemma on_pad_added_spec (element : nat) (pad : GstPad) (depay : nat) (w : World)
      (o : GstObject) :
  heap w !! depay = Some o ->
  let w' := snd (on_pad_added element pad depay w) in
  let name := match heap w !! element with Some e => object_name e | None => "" end in
  next_id w' = next_id w /\ pipeline w' = pipeline w /\ main_loop w' = main_loop w /\
  if is_h264_video pad && bool_decide (sink_peer o = None) then
    match link_return pad with
    | GST_PAD_LINK_OK =>
        heap w' = alter (with_sink_peer (Some (pad_name pad))) depay (heap w)
        /\ console w' = (console w ++
             [received_pad name pad;
              g_print "✓ Successfully linked RTSP source to depayloader\n" []])%list
    | ret =>
        heap w' = heap w
        /\ console w' = (console w ++
             [received_pad name pad;
              g_printerr "Failed to link pads: %d\n" [GInt (pad_link_code ret)]])%list
    end
  else heap w' = heap w /\ console w' = (console w ++ [received_pad name pad])%list.
Proof.
  intros Ho. destruct w as [h n out p ml sr]. simpl in Ho.
  rewrite is_h264_video_eq.
  unfold on_pad_added, gst_pad_link, gst_pad_is_linked, object_name_of,
    received_pad, pad_media, pad_encoding, pad_caps, g_strcmp0.
  run_m.
  destruct (gst_structure_get_string _ "media") as [media|];
    [|simpl; auto].
  destruct (gst_structure_get_string _ "encoding-name") as [encoding|];
    [|simpl; auto].
  destruct (String.eqb media "video"), (String.eqb encoding "H264"); simpl;
    rewrite ?Ho; auto.
  destruct (sink_peer o) as [q|] eqn:Hq; simpl.
  - repeat split; reflexivity.
  - rewrite Ho, Hq. simpl.
    destruct (link_return pad); simpl; rewrite <- app_assoc; repeat split; reflexivity.
Qed.

Lemma links_reported_app (w w' : World) (extra : list Output) :
  console w' = (console w ++ extra)%list ->
  links_reported w'
  = links_reported w
    + length (filter (fun o => out_format o
                               = "✓ Successfully linked RTSP source to depayloader\n") extra).
Proof.
  intros H. unfold links_reported. rewrite H, filter_app, length_app. reflexivity.
Qed.

Lemma entry_peer_heap (depay : nat) (w w' : World) :
  heap w' = heap w -> entry_peer depay w' = entry_peer depay w.
Proof. unfold entry_peer. intros ->. reflexivity. Qed.

(** C4, as amended.  The announcement of a pad links it into the entry
    point (the sink pad of the depayloader) if and only if the media kind is
    "video", the encoding name is "H264", the entry point is not linked yet
    and the engine accepts the link.  Linking is told two ways, by the entry
    point changing hands and by the link being reported, and both happen
    under exactly these conditions; the entry point is then held by the
    announced pad.  In every other case no object changes and no link is
    reported; when the entry point is already held, the announcement is
    printed and nothing else happens, no link being tried.  A pad of any
    other kind or encoding, an "audio" pad in particular, leaves every
    object as it was. *)
Theorem C4_linked_iff_h264_video_free_and_accepted
        (element depay : nat) (pad : GstPad) (w : World) :
  is_Some (heap w !! depay) ->
  let w' := snd (on_pad_added element pad depay w) in
  (entry_peer depay w' <> entry_peer depay w <-> link_conditions pad depay w)
  /\ (links_reported w' = S (links_reported w) <-> link_conditions pad depay w)
  /\ (link_conditions pad depay w ->
      heap w' = alter (with_sink_peer (Some (pad_name pad))) depay (heap w)
      /\ entry_peer depay w' = Some (pad_name pad))
  /\ (~ link_conditions pad depay w ->
      heap w' = heap w /\ links_reported w' = links_reported w)
  /\ (is_Some (entry_peer depay w) ->
      heap w' = heap w
      /\ console w'
         = (console w
            ++ [received_pad (match heap w !! element with
                              | Some e => object_name e
                              | None => ""
                              end) pad])%list)
  /\ (is_h264_video pad = false -> heap w' = heap w)
  /\ (pad_media pad = Some "audio" -> heap w' = heap w).
Proof.
  intros [o Ho] w'.
  destruct (on_pad_added_spec element pad depay w o Ho) as (_ & _ & _ & Hspec).
  fold w' in Hspec.
  assert (Hpeer : entry_peer depay w = sink_peer o)
    by (unfold entry_peer; rewrite Ho; reflexivity).
  assert (Hheld : is_Some (entry_peer depay w) ->
            heap w' = heap w
            /\ console w'
               = (console w
                  ++ [received_pad (match heap w !! element with
                                    | Some e => object_name e
                                    | None => ""
                                    end) pad])%list).
  { intros [q Hq]. rewrite Hpeer in Hq. pose proof Hspec as Hs. rewrite Hq in Hs.
    destruct (is_h264_video pad); simpl in Hs; exact Hs. }
  assert (Haudio : pad_media pad = Some "audio" -> is_h264_video pad = false).
  { intros Hm. apply bool_decide_eq_false_2. intros [H _]. congruence. }
  assert (Hcases :
            (link_conditions pad depay w
             /\ heap w' = alter (with_sink_peer (Some (pad_name pad))) depay (heap w)
             /\ links_reported w' = S (links_reported w))
            \/ (~ link_conditions pad depay w
                /\ heap w' = heap w /\ links_reported w' = links_reported w)).
  { unfold link_conditions. rewrite Hpeer.
    destruct (is_h264_video pad) eqn:Hv; simpl in Hspec.
    - destruct (sink_peer o) as [q|] eqn:Hq; simpl in Hspec.
      + destruct Hspec as [Hh Hcon]. right.
        split; [intros (_ & ? & _); discriminate|]. split; [exact Hh|].
        rewrite (links_reported_app _ _ _ Hcon). simpl. lia.
      + destruct (link_return pad) eqn:Hl; destruct Hspec as [Hh Hcon].
        { left. split; [auto|]. split; [exact Hh|].
          rewrite (links_reported_app _ _ _ Hcon). simpl. lia. }
        all: right; split; [intros (_ & _ & ?); discriminate|]; split; [exact Hh|].
        all: rewrite (links_reported_app _ _ _ Hcon); simpl; lia.
    - destruct Hspec as [Hh Hcon]. right.
      split; [intros (? & _); discriminate|]. split; [exact Hh|].
      rewrite (links_reported_app _ _ _ Hcon). simpl. lia. }
  assert (Hnv : is_h264_video pad = false -> heap w' = heap w).
  { intros Hv. destruct Hcases as [((Hv' & _) & _)|(_ & Hh & _)]; [congruence | exact Hh]. }
  destruct Hcases as [(Hc & Hh & Hn)|(Hc & Hh & Hn)].
  - assert (He : entry_peer depay w' = Some (pad_name pad))
      by (unfold entry_peer; rewrite Hh, lookup_alter_eq, Ho; reflexivity).
    destruct Hc as (Hv & Hfree & Hl).
    split; [split; [intros _; repeat split; assumption
                   | intros _; rewrite He, Hfree; discriminate]|].
    split; [split; [intros _; repeat split; assumption | intros _; exact Hn]|].
    split; [intros _; split; assumption|].
    split; [intros Hno; exfalso; apply Hno; repeat split; assumption|].
    split; [exact Hheld|].
    split; [exact Hnv | intros Hm; apply Hnv, Haudio, Hm].
  - split; [split; [intros Hne; exfalso; apply Hne, entry_peer_heap, Hh
                   | intros H; contradiction]|].
    split; [split; [intros H; lia | intros H; contradiction]|].
    split; [intros H; contradiction|].
    split; [intros _; split; assumption|].
    split; [exact Hheld|].
    split; [exact Hnv | intros Hm; apply Hnv, Haudio, Hm].
Qed.

(** C4 fails as stated: an H.264 video pad announced while the entry point
    is held by an earlier pad is not linked, and neither is one whose link
    the engine refuses. *)
Lemma C4_h264_video_not_always_linked :
  is_h264_video second_video_pad = true
  /\ entry_peer 2 linked_world = Some (pad_name video_pad)
  /\ entry_peer 2 (snd (on_pad_added 1 second_video_pad 2 linked_world))
     = Some (pad_name video_pad)
  /\ pad_name second_video_pad <> pad_name video_pad
  /\ is_h264_video refused_video_pad = true
  /\ entry_peer 2 running_world = None
  /\ entry_peer 2 (snd (on_pad_added 1 refused_video_pad 2 running_world)) = None.
Proof. vm_compute. repeat split; try reflexivity. discriminate. Qed.

(** The first video pad announced to the running system; the depayloader
    is object 2. *)
Lemma C4_linked_witness :
  let w' := snd (on_pad_added 1 video_pad 2 running_world) in
  (entry_peer 2 w' <> entry_peer 2 running_world
   <-> link_conditions video_pad 2 running_world)
  /\ (links_reported w' = S (links_reported running_world)
      <-> link_conditions video_pad 2 running_world)
  /\ (link_conditions video_pad 2 running_world ->
      heap w' = alter (with_sink_peer (Some (pad_name video_pad))) 2 (heap running_world)
      /\ entry_peer 2 w' = Some (pad_name video_pad))
  /\ (~ link_conditions video_pad 2 running_world ->
      heap w' = heap running_world /\ links_reported w' = links_reported running_world)
  /\ (is_Some (entry_peer 2 running_world) ->
      heap w' = heap running_world
      /\ console w'
         = (console running_world
            ++ [received_pad (match heap running_world !! 1 with
                              | Some e => object_name e
                              | None => ""
                              end) video_pad])%list)
  /\ (is_h264_video video_pad = false -> heap w' = heap running_world)
  /\ (pad_media video_pad = Some "audio" -> heap w' = heap running_world).
Proof.
  apply (C4_linked_iff_h264_video_free_and_accepted 1 2 video_pad running_world).
  vm_compute. eexists. reflexivity.
Defined.

(** An audio pad announced to the running system is reported and nothing
    else happens. *)
Example audio_pad_is_ignored :
  is_h264_video audio_pad = false
  /\ heap (snd (on_pad_added 1 audio_pad 2 running_world)) = heap running_world
  /\ entry_peer 2 (snd (on_pad_added 1 audio_pad 2 running_world)) = None
  /\ links_reported (snd (on_pad_added 1 audio_pad 2 running_world)) = 0.
Proof. vm_compute. repeat split; reflexivity. Qed.

(** C5.  Whatever pad is announced, delivering the same announcement a
    second time changes no object and reports no further link; an entry
    point that is linked keeps its peer; and a pad that is linked by its
    first delivery is linked exactly once over the two. *)
Theorem C5_dynamic_linking_is_idempotent
        (element depay : nat) (pad : GstPad) (w : World) :
  is_Some (heap w !! depay) ->
  let w1 := snd (on_pad_added element pad depay w) in
  let w2 := snd (on_pad_added element pad depay w1) in
  heap w2 = heap w1
  /\ links_reported w2 = links_reported w1
  /\ links_reported w2 <= S (links_reported w)
  /\ (forall q, entry_peer depay w = Some q ->
        entry_peer depay w2 = Some q /\ links_reported w2 = links_reported w)
  /\ (is_h264_video pad = true -> entry_peer depay w = None ->
      link_return pad = GST_PAD_LINK_OK ->
        entry_peer depay w2 = Some (pad_name pad)
        /\ links_reported w2 = S (links_reported w)).
Proof.
  intros [o Ho] w1 w2.
  destruct (on_pad_added_spec element pad depay w o Ho) as (_ & _ & _ & H1).
  fold w1 in H1.
  assert (Hpeer : entry_peer depay w = sink_peer o)
    by (unfold entry_peer; rewrite Ho; reflexivity).
  assert (Hsame : forall o1, heap w1 !! depay = Some o1 ->
            is_h264_video pad && bool_decide (sink_peer o1 = None) = false ->
            heap w2 = heap w1 /\ links_reported w2 = links_reported w1).
  { intros o1 Ho1 Hc.
    destruct (on_pad_added_spec element pad depay w1 o1 Ho1) as (_ & _ & _ & H2).
    fold w2 in H2. rewrite Hc in H2. destruct H2 as [Hh Hcon].
    split; [exact Hh|]. rewrite (links_reported_app _ _ _ Hcon). simpl. lia. }
  destruct (is_h264_video pad && bool_decide (sink_peer o = None)) eqn:Hc.
  - apply andb_true_iff in Hc as [Hv Hfree].
    apply bool_decide_eq_true_1 in Hfree.
    destruct (link_return pad) eqn:Hl; destruct H1 as [Hh Hcon].
    { (* the first delivery links *)
      assert (Ho1 : heap w1 !! depay = Some (with_sink_peer (Some (pad_name pad)) o))
        by (rewrite Hh, lookup_alter_eq, Ho; reflexivity).
      destruct (Hsame _ Ho1) as [Hh2 Hl2]; [rewrite Hv; reflexivity|].
      assert (Hn : links_reported w1 = S (links_reported w))
        by (rewrite (links_reported_app _ _ _ Hcon); simpl; lia).
      assert (He : entry_peer depay w2 = Some (pad_name pad))
        by (unfold entry_peer; rewrite Hh2, Ho1; reflexivity).
      repeat split; try assumption; try lia.
      - rewrite Hpeer, Hfree in H. discriminate.
      - rewrite Hpeer, Hfree in H. discriminate. }
    all: assert (Ho1 : heap w1 !! depay = Some o) by (rewrite Hh; exact Ho).
    all: assert (Hn : links_reported w1 = links_reported w)
      by (rewrite (links_reported_app _ _ _ Hcon); simpl; lia).
    all: destruct (on_pad_added_spec element pad depay w1 o Ho1) as (_ & _ & _ & H2);
      fold w2 in H2; rewrite Hv, Hfree, Hl in H2; simpl in H2; destruct H2 as [Hh2 Hcon2].
    all: assert (Hn2 : links_reported w2 = links_reported w1)
      by (rewrite (links_reported_app _ _ _ Hcon2); simpl; lia).
    all: repeat split; try assumption; try lia; try discriminate.
    all: try (rewrite Hpeer, Hfree in H; discriminate).
  - destruct H1 as [Hh Hcon].
    assert (Ho1 : heap w1 !! depay = Some o) by (rewrite Hh; exact Ho).
    destruct (Hsame _ Ho1 Hc) as [Hh2 Hl2].
    assert (Hn : links_reported w1 = links_reported w)
      by (rewrite (links_reported_app _ _ _ Hcon); simpl; lia).
    repeat split; try assumption; try lia.
    + rewrite (entry_peer_heap _ _ _ Hh2), (entry_peer_heap _ _ _ Hh). exact H.
    + exfalso. rewrite Hpeer in H0. rewrite H, H0 in Hc. discriminate.
    + exfalso. rewrite Hpeer in H0. rewrite H, H0 in Hc. discriminate.
Qed.

(** The video pad announced twice to the running system. *)
Lemma C5_dynamic_linking_witness :
  heap (snd (on_pad_added 1 video_pad 2 linked_world)) = heap linked_world
  /\ links_reported (snd (on_pad_added 1 video_pad 2 linked_world))
     = links_reported linked_world
  /\ links_reported (snd (on_pad_added 1 video_pad 2 linked_world))
     <= S (links_reported running_world)
  /\ (forall q, entry_peer 2 running_world = Some q ->
        entry_peer 2 (snd (on_pad_added 1 video_pad 2 linked_world)) = Some q
        /\ links_reported (snd (on_pad_added 1 video_pad 2 linked_world))
           = links_reported running_world)
  /\ (is_h264_video video_pad = true -> entry_peer 2 running_world = None ->
      link_return video_pad = GST_PAD_LINK_OK ->
        entry_peer 2 (snd (on_pad_added 1 video_pad 2 linked_world))
        = Some (pad_name video_pad)
        /\ links_reported (snd (on_pad_added 1 video_pad 2 linked_world))
           = S (links_reported running_world)).
Proof.
  apply (C5_dynamic_linking_is_idempotent 1 2 video_pad running_world).
  vm_compute. eexists. reflexivity.
Defined.

(** ** Pipeline builder *)

Ltac heap_lookups :=
  repeat first
    [ rewrite lookup_insert_eq
    | rewrite lookup_alter_eq
    | rewrite lookup_delete_eq
    | rewrite lookup_insert_ne by lia
    | rewrite lookup_alter_ne by lia
    | rewrite lookup_delete_ne by lia ].

(** Evaluation of the plumbing only: the operations that look an object up
    stay folded until their lookup is known. *)
Ltac red_m :=
  lazy beta iota zeta delta
    [mbind M_bind mret M_ret emit modify get_world update_object alloc set_heap
     unref_if_set gst_pipeline_new gst_element_factory_make g_object_set gst_bin_add
     gst_bin_add_many g_signal_connect gst_element_link_many negb
     heap next_id console pipeline main_loop shutdown_requested fst snd].

(** One step of each operation that looks an object up. *)
Lemma gst_object_unref_leaf (id : nat) (w : World) (o : GstObject) :
  heap w !! id = Some o -> refcount o <= 1 -> children o = [] ->
  gst_object_unref id w = (tt, set_heap (delete id (heap w)) w).
Proof.
  intros Ho Hr Hc. unfold gst_object_unref, modify. rewrite Ho, Hc.
  destruct (decide (refcount o <= 1)); [reflexivity | contradiction].
Qed.

Lemma gst_object_unref_bin (id : nat) (w : World) (o : GstObject) :
  heap w !! id = Some o -> refcount o <= 1 ->
  gst_object_unref id w
  = (tt, set_heap (foldr unref_leaf (delete id (heap w)) (children o)) w).
Proof.
  intros Ho Hr. unfold gst_object_unref, modify. rewrite Ho.
  destruct (decide (refcount o <= 1)); [reflexivity | contradiction].
Qed.

Lemma unref_leaf_last (id : nat) (h : gmap nat GstObject) (o : GstObject) :
  h !! id = Some o -> refcount o <= 1 -> unref_leaf id h = delete id h.
Proof.
  intros Ho Hr. unfold unref_leaf. rewrite Ho.
  destruct (decide (refcount o <= 1)); [reflexivity | contradiction].
Qed.

Lemma gst_element_link_spec (env : Env) (a b : nat) (w : World) (oa ob : GstObject) :
  heap w !! a = Some oa -> heap w !! b = Some ob ->
  gst_element_link env a b w
  = if can_link env (factory_name oa) (factory_name ob)
    then (true, set_heap (alter (with_sink_peer (Some (object_name oa))) b (heap w)) w)
    else (false, w).
Proof.
  intros Ha Hb. unfold gst_element_link. run_m. rewrite Ha, Hb.
  destruct (can_link env _ _); reflexivity.
Qed.

Ltac heap_restored Hfresh :=
  apply map_eq; intros k;
  repeat (rewrite lookup_delete; case_decide; [symmetry; apply Hfresh; lia|]);
  repeat first [ rewrite lookup_insert_ne by lia | rewrite lookup_alter_ne by lia ];
  reflexivity.

Ltac unref_step :=
  match goal with
  | |- context [gst_object_unref ?id ?W] =>
      erewrite (gst_object_unref_leaf id W)
        by (first [ cbn [heap]; heap_lookups; reflexivity
                  | cbn; lia
                  | reflexivity ])
  end; red_m.

(** When one of the five elements cannot be made, whatever was made is
    released again, the pipeline object included. *)
Lemma create_fails_elements (env : Env) (config : ReplayConfig) (hw : HWAccelType) (w : World) :
  fresh_from w ->
  elements_available env = false ->
  let r := create_input_pipeline env config hw w in
  fst r = None /\ heap (snd r) = heap w.
Proof.
  intros Hfresh Hav. destruct w as [h n out p ml sr].
  unfold fresh_from in Hfresh. cbn [heap next_id] in Hfresh.
  unfold elements_available in Hav.
  unfold create_input_pipeline. red_m.
  destruct (pipeline_new_ok env); [|red_m; auto].
  destruct (can_make env "rtspsrc") eqn:H1, (can_make env "rtph264depay") eqn:H2,
    (can_make env "h264parse") eqn:H3, (can_make env "queue2") eqn:H4,
    (can_make env "filesink") eqn:H5; try discriminate Hav.
  all: red_m; repeat unref_step.
  all: split; [reflexivity | heap_restored Hfresh].
Qed.

Ltac obj_simpl :=
  cbn [factory_name object_name refcount floating children sink_peer
       with_props with_child with_refcount with_handler with_sink_peer
       with_target_state new_object fmap option_fmap option_map app].

Ltac lookup_side :=
  cbn [heap]; heap_lookups; obj_simpl; reflexivity.

Ltac link_step :=
  match goal with
  | |- context [gst_element_link ?env ?a ?b ?W] =>
      erewrite (gst_element_link_spec env a b W) by lookup_side
  end; obj_simpl.

Ltac bin_unref_step :=
  match goal with
  | |- context [gst_object_unref ?id ?W] =>
      erewrite (gst_object_unref_bin id W) by first [ lookup_side | obj_simpl; lia ]
  end;
  red_m; obj_simpl; cbn [fold_right];
  repeat match goal with
  | |- context [unref_leaf ?id (delete ?j ?H)] =>
      erewrite (unref_leaf_last id (delete j H))
        by first [ heap_lookups; obj_simpl; reflexivity | obj_simpl; lia ]
  end.

(** When the elements exist but a static link fails, the pipeline is
    released and takes its five children with it. *)
Lemma create_fails_link (env : Env) (config : ReplayConfig) (hw : HWAccelType) (w : World) :
  fresh_from w ->
  elements_available env = true ->
  static_links_ok env = false ->
  let r := create_input_pipeline env config hw w in
  fst r = None /\ heap (snd r) = heap w.
Proof.
  intros Hfresh Hav Hlink. destruct w as [h n out p ml sr].
  unfold fresh_from in Hfresh. cbn [heap next_id] in Hfresh.
  unfold elements_available in Hav. unfold static_links_ok in Hlink.
  apply andb_true_iff in Hav as [Hav H5]. apply andb_true_iff in Hav as [Hav H4].
  apply andb_true_iff in Hav as [Hav H3]. apply andb_true_iff in Hav as [H1 H2].
  unfold create_input_pipeline. red_m.
  destruct (pipeline_new_ok env); [|red_m; auto].
  rewrite H1, H2, H3, H4, H5. red_m.
  link_step.
  destruct (can_link env "rtph264depay" "h264parse") eqn:L1.
  2: { red_m. bin_unref_step. split; [reflexivity | heap_restored Hfresh]. }
  red_m. link_step.
  destruct (can_link env "h264parse" "queue2") eqn:L2.
  2: { red_m. bin_unref_step. split; [reflexivity | heap_restored Hfresh]. }
  red_m. link_step.
  destruct (can_link env "queue2" "filesink") eqn:L3; [discriminate Hlink|].
  red_m. bin_unref_step. split; [reflexivity | heap_restored Hfresh].
Qed.


(** Construction does succeed when nothing fails: the failure result above
    is not the only one. *)
Lemma create_succeeds :
  fst (create_input_pipeline (env_with registry_software []) default_config HW_ACCEL_NONE
                             initial_world) = Some 0.
Proof. vm_compute. reflexivity. Qed.

(** C8.  When one of the five required elements (source, depacketizer,
    parser, ring buffer, sink) cannot be instantiated, or one of the static
    links between them fails, [create_input_pipeline] returns the null
    handle, and the store of engine objects is what it was before the call:
    every object made on the way is released, so no pipeline, partial or
    not, is left. *)
Theorem C8_construction_failure_releases_everything
        (env : Env) (config : ReplayConfig) (hw_type : HWAccelType) (w : World) :
  fresh_from w ->
  elements_available env = false \/ static_links_ok env = false ->
  let r := create_input_pipeline env config hw_type w in
  fst r = None /\ heap (snd r) = heap w.
Proof.
  intros Hfresh Hfail.
  destruct (elements_available env) eqn:Hav.
  - destruct Hfail as [Hfail|Hfail]; [discriminate|].
    apply create_fails_link; assumption.
  - apply create_fails_elements; assumption.
Qed.

(** An engine without the [queue2] factory, started from the empty store. *)
Lemma C8_construction_failure_witness :
  let env := mkEnv registry_software (fun name => negb (String.eqb name "queue2")) true
                   (fun _ _ => true) true 1 GST_STATE_CHANGE_ASYNC [] in
  let r := create_input_pipeline env default_config HW_ACCEL_NONE initial_world in
  fst r = None /\ heap (snd r) = heap initial_world.
Proof.
  apply C8_construction_failure_releases_everything.
  - intros k _. reflexivity.
  - left. vm_compute. reflexivity.
Defined.

(** ** Main loop and exit code *)

(** The handlers other than those of Error, EndOfStream and signals leave
    the quit flag alone. *)
Lemma on_pad_added_main_loop (element : nat) (pad : GstPad) (data : nat) (w : World) :
  main_loop (snd (on_pad_added element pad data w)) = main_loop w.
Proof.
  destruct w as [h n out p ml sr].
  unfold on_pad_added, gst_pad_link, gst_pad_is_linked, object_name_of, g_strcmp0.
  run_m.
  destruct (gst_structure_get_string _ "media") as [media|]; [|reflexivity].
  destruct (gst_structure_get_string _ "encoding-name") as [encoding|]; [|reflexivity].
  destruct (String.eqb media "video"), (String.eqb encoding "H264"); simpl;
    try reflexivity.
  destruct (h !! data) as [o|] eqn:Hd; simpl; rewrite ?Hd; simpl.
  - destruct (sink_peer o) eqn:Hs; simpl; [reflexivity|].
    rewrite ?Hd; simpl; rewrite ?Hs; simpl.
    destruct (link_return pad); reflexivity.
  - rewrite ?Hd; simpl. destruct (link_return pad); reflexivity.
Qed.

Lemma emit_pad_added_main_loop (element : nat) (pad : GstPad) (hs : list (string * nat))
      (w : World) :
  main_loop (snd (emit_pad_added element pad hs w)) = main_loop w.
Proof.
  revert w. induction hs as [|[signal data] hs IH]; intros w; [reflexivity|].
  cbn [emit_pad_added]. unfold mbind, M_bind.
  destruct (String.eqb signal "pad-added").
  - pose proof (on_pad_added_main_loop element pad data w) as H.
    destruct (on_pad_added element pad data w) as [u w1]. simpl in H.
    rewrite IH. exact H.
  - unfold mret, M_ret. apply IH.
Qed.


Lemma dispatch_main_loop (e : Event) (w : World) :
  main_loop (snd (dispatch e w))
  = if quits e then quit_flag (main_loop w) else main_loop w.
Proof.
  destruct e as [m|element pad|signum|].
  - destruct w as [h n out p ml sr].
    destruct m; unfold dispatch, bus_callback, g_main_loop_quit, object_name_of,
      set_pipeline_state, gst_element_set_state; run_m; try reflexivity.
    + case_bool_decide; reflexivity.
    + destruct (percent <? 100)%Z, p; reflexivity.
  - unfold dispatch, mbind, M_bind, lookup_object. simpl.
    destruct (heap w !! element); [apply emit_pad_added_main_loop | reflexivity].
  - destruct w as [h n out p ml sr]. reflexivity.
  - destruct w as [h n out p ml sr]. reflexivity.
Qed.

(** The loop returns exactly when a quitting event is delivered. *)
Lemma main_loop_iterate_returns (evs : list Event) (w : World) :
  main_loop w = Some false ->
  fst (main_loop_iterate evs w) = existsb quits evs.
Proof.
  revert w. induction evs as [|e evs IH]; intros w Hml; [reflexivity|].
  cbn [main_loop_iterate existsb]. unfold mbind, M_bind, get_world.
  pose proof (dispatch_main_loop e w) as Hd. rewrite Hml in Hd.
  destruct (dispatch e w) as [u w1]. simpl in Hd.
  destruct (quits e); simpl in *.
  - rewrite Hd. reflexivity.
  - rewrite Hd. simpl. apply IH. exact Hd.
Qed.

Lemma main_run_outcome (env : Env) (config : ReplayConfig) (rtsp_server pipeline : nat)
      (w : World) :
  fst (main_run env config rtsp_server pipeline w)
  = if existsb quits (events env) then Exit 0 else Running.
Proof.
  unfold main_run, g_main_loop_run, g_main_loop_new. run_m.
  match goal with
  | |- context [main_loop_iterate ?evs ?W] =>
      pose proof (main_loop_iterate_returns evs W eq_refl) as Hr;
      destruct (main_loop_iterate evs W) as [returned w1]
  end.
  simpl in Hr. rewrite <- Hr.
  destruct returned; [|reflexivity].
  unfold gst_element_set_state, gst_object_unref. run_m. reflexivity.
Qed.




Example main_exits_zero_on_end_of_stream :
  is_Some (started replay_command env_end_of_stream initial_world)
  /\ fst (main replay_command env_end_of_stream initial_world) = Exit 0.
Proof. split; [vm_compute; eexists|vm_compute]; reflexivity. Qed.

Example main_exits_zero_on_error :
  is_Some (started replay_command env_runtime_error initial_world)
  /\ fst (main replay_command env_runtime_error initial_world) = Exit 0.
Proof. split; [vm_compute; eexists|vm_compute]; reflexivity. Qed.

Example main_exits_one_before_the_loop :
  started replay_command env_no_ring_buffer initial_world = None
  /\ fst (main replay_command env_no_ring_buffer initial_world) = Exit 1
  /\ fst (main ["instant-replay"] env_end_of_stream initial_world) = Exit 1.
Proof. vm_compute. repeat split; reflexivity. Qed.

(** ** Command line *)

Lemma erase_gpu_fields (c1 c2 : ReplayConfig) :
  erase_gpu c1 = erase_gpu c2 ->
  input_rtsp_url c1 = input_rtsp_url c2 /\ buffer_seconds c1 = buffer_seconds c2
  /\ output_rtsp_port c1 = output_rtsp_port c2
  /\ use_hardware_accel c1 = use_hardware_accel c2
  /\ output_mount_point c1 = output_mount_point c2.
Proof. unfold erase_gpu, set_gpu_id. intros H. injection H. auto. Qed.

Lemma erase_gpu_intro (c1 c2 : ReplayConfig) :
  input_rtsp_url c1 = input_rtsp_url c2 -> buffer_seconds c1 = buffer_seconds c2 ->
  output_rtsp_port c1 = output_rtsp_port c2 ->
  use_hardware_accel c1 = use_hardware_accel c2 ->
  output_mount_point c1 = output_mount_point c2 ->
  erase_gpu c1 = erase_gpu c2.
Proof. unfold erase_gpu, set_gpu_id. intros -> -> -> -> ->. reflexivity. Qed.

Ltac erase_solve :=
  match goal with
  | H : erase_gpu ?c1 = erase_gpu ?c2 |- _ =>
      destruct (erase_gpu_fields c1 c2 H) as (? & ? & ? & ? & ?);
      apply erase_gpu_intro; simpl; congruence
  end.

(** The loop never branches on the stored GPU number. *)
Lemma parse_loop_erase (argv0 : string) (n : nat) :
  forall (args : list string) (c1 c2 : ReplayConfig) (w : World),
    length args <= n ->
    erase_gpu c1 = erase_gpu c2 ->
    agree (parse_loop argv0 args c1 w) (parse_loop argv0 args c2 w).
Proof.
  induction n as [|n IH]; intros args c1 c2 w Hlen He.
  - destruct args; [|simpl in Hlen; lia]. split; simpl; [rewrite He|]; reflexivity.
  - destruct args as [|arg rest]; [split; simpl; [rewrite He|]; reflexivity|].
    assert (Hone : forall f : ReplayConfig -> ReplayConfig,
               erase_gpu (f c1) = erase_gpu (f c2) ->
               agree (parse_loop argv0 rest (f c1) w) (parse_loop argv0 rest (f c2) w)).
    { intros f Hf. apply IH; [simpl in Hlen; lia | exact Hf]. }
    assert (Hstop : forall (m : M unit),
               agree ((m ;; mret (Return (false, c1))) w)
                     ((m ;; mret (Return (false, c2))) w)).
    { intros m. unfold agree, mbind, M_bind, mret, M_ret.
      destruct (m w) as [u w1]. simpl. rewrite He. auto. }
    destruct rest as [|value rest'].
    + cbn [parse_loop].
      destruct (String.eqb arg "--no-hw");
        [apply (Hone (set_use_hardware_accel false)); erase_solve|].
      destruct (is_help arg); apply Hstop.
    + assert (Htwo : forall f : ReplayConfig -> ReplayConfig,
               erase_gpu (f c1) = erase_gpu (f c2) ->
               agree (parse_loop argv0 rest' (f c1) w) (parse_loop argv0 rest' (f c2) w)).
      { intros f Hf. apply IH; [simpl in Hlen; lia | exact Hf]. }
      cbn [parse_loop].
      destruct (String.eqb arg "-i" || String.eqb arg "--input");
        [apply (Htwo (set_input_rtsp_url value)); erase_solve|].
      destruct (String.eqb arg "-b" || String.eqb arg "--buffer").
      { destruct (stoi value) as [z|e];
          [apply (Htwo (set_buffer_seconds z)); erase_solve | split; reflexivity]. }
      destruct (String.eqb arg "-p" || String.eqb arg "--port").
      { destruct (stoi value) as [z|e];
          [apply (Htwo (set_output_rtsp_port z)); erase_solve | split; reflexivity]. }
      destruct (String.eqb arg "--no-hw");
        [apply (Hone (set_use_hardware_accel false)); erase_solve|].
      destruct (String.eqb arg "--gpu").
      { destruct (stoi value) as [z|e];
          [apply (Htwo (set_gpu_id z)); erase_solve | split; reflexivity]. }
      destruct (String.eqb arg "-m" || String.eqb arg "--mount");
        [apply (Htwo (set_output_mount_point value)); erase_solve|].
      destruct (is_help arg); apply Hstop.
Qed.

Ltac str_eval :=
  cbn [String.eqb Ascii.eqb Bool.eqb orb andb negb is_help takes_value].

Lemma agree_refl (r : Throws (bool * ReplayConfig) * World) : agree r r.
Proof. split; reflexivity. Qed.

(** Two values that [std::stoi] accepts after [--gpu] lead the loop the
    same way. *)
Lemma parse_loop_gpu_value (argv0 v1 v2 : string) (n1 n2 : Z) (after : list string) :
  stoi v1 = Return n1 -> stoi v2 = Return n2 ->
  forall (n : nat) (before : list string) (c : ReplayConfig) (w : World),
    length before <= n -> at_option_position before = true ->
    agree (parse_loop argv0 (before ++ "--gpu" :: v1 :: after) c w)
          (parse_loop argv0 (before ++ "--gpu" :: v2 :: after) c w).
Proof.
  intros Hv1 Hv2.
  assert (Hbase : forall c w,
             agree (parse_loop argv0 ("--gpu" :: v1 :: after) c w)
                   (parse_loop argv0 ("--gpu" :: v2 :: after) c w)).
  { intros c w. cbn [parse_loop]. str_eval. rewrite Hv1, Hv2.
    apply (parse_loop_erase argv0 (length after)); [lia | reflexivity]. }
  induction n as [|n IH]; intros before c w Hlen Hpos.
  - destruct before; [apply Hbase | simpl in Hlen; lia].
  - destruct before as [|arg rest]; [apply Hbase|].
    destruct rest as [|value rest'].
    + cbn [at_option_position] in Hpos. revert Hpos. cbn [app parse_loop].
      unfold takes_value.
      destruct (String.eqb_spec arg "-i") as [->|_]; [discriminate|].
      destruct (String.eqb_spec arg "--input") as [->|_]; [discriminate|].
      destruct (String.eqb_spec arg "-b") as [->|_]; [discriminate|].
      destruct (String.eqb_spec arg "--buffer") as [->|_]; [discriminate|].
      destruct (String.eqb_spec arg "-p") as [->|_]; [discriminate|].
      destruct (String.eqb_spec arg "--port") as [->|_]; [discriminate|].
      destruct (String.eqb_spec arg "--gpu") as [->|_]; [discriminate|].
      destruct (String.eqb_spec arg "-m") as [->|_]; [discriminate|].
      destruct (String.eqb_spec arg "--mount") as [->|_]; [discriminate|].
      intros _. str_eval.
      destruct (String.eqb arg "--no-hw"); [apply Hbase|].
      destruct (is_help arg); apply agree_refl.
    + assert (Htwo : at_option_position rest' = true -> forall c',
                agree (parse_loop argv0 (rest' ++ "--gpu" :: v1 :: after) c' w)
                      (parse_loop argv0 (rest' ++ "--gpu" :: v2 :: after) c' w)).
      { intros Hp c'. apply IH; [simpl in Hlen; lia | exact Hp]. }
      cbn [at_option_position] in Hpos. revert Hpos. cbn [app parse_loop].
      unfold takes_value.
      destruct (String.eqb_spec arg "-i") as [->|_]; [str_eval; intros Hp; apply Htwo, Hp|].
      destruct (String.eqb_spec arg "--input") as [->|_];
        [str_eval; intros Hp; apply Htwo, Hp|].
      destruct (String.eqb_spec arg "-b") as [->|_].
      { str_eval. intros Hp. destruct (stoi value); [apply Htwo, Hp | apply agree_refl]. }
      destruct (String.eqb_spec arg "--buffer") as [->|_].
      { str_eval. intros Hp. destruct (stoi value); [apply Htwo, Hp | apply agree_refl]. }
      destruct (String.eqb_spec arg "-p") as [->|_].
      { str_eval. intros Hp. destruct (stoi value); [apply Htwo, Hp | apply agree_refl]. }
      destruct (String.eqb_spec arg "--port") as [->|_].
      { str_eval. intros Hp. destruct (stoi value); [apply Htwo, Hp | apply agree_refl]. }
      destruct (String.eqb_spec arg "--no-hw") as [->|_].
      { str_eval. intros Hp.
        apply (IH (value :: rest')); [simpl in Hlen |- *; lia | exact Hp]. }
      destruct (String.eqb_spec arg "--gpu") as [->|_].
      { str_eval. intros Hp. destruct (stoi value); [apply Htwo, Hp | apply agree_refl]. }
      destruct (String.eqb_spec arg "-m") as [->|_]; [str_eval; intros Hp; apply Htwo, Hp|].
      destruct (String.eqb_spec arg "--mount") as [->|_];
        [str_eval; intros Hp; apply Htwo, Hp|].
      str_eval. intros _. destruct (is_help arg); apply agree_refl.
Qed.

Lemma main_startup_erase (env : Env) (c : ReplayConfig) :
  main_startup env (erase_gpu c) = main_startup env c.
Proof. reflexivity. Qed.

Lemma main_run_erase (env : Env) (c : ReplayConfig) (rtsp_server pipeline : nat) :
  main_run env (erase_gpu c) rtsp_server pipeline = main_run env c rtsp_server pipeline.
Proof. reflexivity. Qed.


Lemma main_continue_erase (env : Env) (parsed : Throws (bool * ReplayConfig)) :
  main_continue env (erase_result parsed) = main_continue env parsed.
Proof. destruct parsed as [[[|] c]|e]; reflexivity. Qed.

Lemma parse_arguments_agree (argv0 : string) (args1 args2 : list string)
      (c : ReplayConfig) (w : World) :
  agree (parse_loop argv0 args1 c w) (parse_loop argv0 args2 c w) ->
  agree (parse_arguments (argv0 :: args1) c w) (parse_arguments (argv0 :: args2) c w).
Proof.
  unfold agree, parse_arguments, mbind, M_bind. cbn [head tail default from_option id].
  destruct (parse_loop argv0 args1 c w) as [[[b1 c1]|e1] w1],
           (parse_loop argv0 args2 c w) as [[[b2 c2]|e2] w2];
    cbn [fst snd erase_result]; intros [Hr Hw]; try discriminate Hr; subst w2.
  - assert (Hb : b1 = b2) by congruence.
    assert (He : erase_gpu c1 = erase_gpu c2) by congruence.
    subst b1. clear Hr.
    destruct (erase_gpu_fields c1 c2 He) as (Hurl & _).
    unfold mret, M_ret.
    destruct b2; [|cbn [fst snd erase_result]; rewrite He; auto].
    rewrite Hurl. destruct (String.eqb (input_rtsp_url c2) "").
    + destruct (emit _ w1). cbn [fst snd erase_result]. rewrite He. auto.
    + cbn [fst snd erase_result]. rewrite He. auto.
  - injection Hr as ->. auto.
Qed.

(** C9, as amended.  Two command lines that differ only in the value
    given to [--gpu], both values being accepted by [std::stoi], make [main]
    print the same, build the same objects and end the same way: the number
    stored in [gpu_id] is read by nothing. *)
Theorem C9_gpu_value_is_never_observed
        (argv0 : string) (before after : list string) (v1 v2 : string)
        (env : Env) (w : World) :
  at_option_position before = true ->
  (exists n1, stoi v1 = Return n1) ->
  (exists n2, stoi v2 = Return n2) ->
  main (argv0 :: before ++ "--gpu" :: v1 :: after) env w
  = main (argv0 :: before ++ "--gpu" :: v2 :: after) env w.
Proof.
  intros Hpos [n1 Hv1] [n2 Hv2].
  assert (Hmain : forall argv, main argv env w
            = (let '(parsed, w1) :=
                 parse_arguments argv default_config
                   (snd (emit (g_print "Initializing GStreamer 1.28.0...\n" []) w)) in
               main_continue env parsed w1)).
  { intros argv. unfold main, mbind, M_bind.
    destruct (emit _ w) as [u w0]. reflexivity. }
  rewrite !Hmain.
  pose proof (parse_arguments_agree argv0 _ _ default_config
                (snd (emit (g_print "Initializing GStreamer 1.28.0...\n" []) w))
                (parse_loop_gpu_value argv0 v1 v2 n1 n2 after Hv1 Hv2
                   (length before) before default_config _ (le_n _) Hpos)) as [Hr Hw].
  destruct (parse_arguments (argv0 :: before ++ "--gpu" :: v1 :: after) _ _) as [r1 w1],
           (parse_arguments (argv0 :: before ++ "--gpu" :: v2 :: after) _ _) as [r2 w2].
  cbn [fst snd] in Hr, Hw. subst w2.
  rewrite <- (main_continue_erase env r1), <- (main_continue_erase env r2), Hr.
  reflexivity.
Qed.

(** GPU 0 against GPU 1 on an otherwise identical command line. *)
Lemma C9_gpu_value_witness :
  main ("instant-replay" :: ["-i"; "rtsp://camera:554/stream"] ++ "--gpu" :: "0" :: [])
       env_end_of_stream initial_world
  = main ("instant-replay" :: ["-i"; "rtsp://camera:554/stream"] ++ "--gpu" :: "1" :: [])
         env_end_of_stream initial_world.
Proof.
  apply (C9_gpu_value_is_never_observed "instant-replay"
           ["-i"; "rtsp://camera:554/stream"] [] "0" "1" env_end_of_stream initial_world).
  - reflexivity.
  - exists 0%Z. vm_compute. reflexivity.
  - exists 1%Z. vm_compute. reflexivity.
Defined.

(** C9 fails as stated: a value that [std::stoi] rejects ends the process
    with an uncaught exception, where another value lets it run to exit
    code 0. *)
Lemma C9_gpu_value_can_end_the_process :
  fst (main (replay_command ++ ["--gpu"; "0"]) env_end_of_stream initial_world) = Exit 0
  /\ fst (main (replay_command ++ ["--gpu"; "first"]) env_end_of_stream initial_world)
     = Terminate invalid_argument
  /\ fst (main (replay_command ++ ["--gpu"; "4294967296"]) env_end_of_stream initial_world)
     = Terminate out_of_range.
Proof. vm_compute. repeat split; reflexivity. Qed.

(* ================================================================= *)
(** * Further properties *)

(** ** Printing leaves the objects alone *)

Lemma with_console_nil (w : World) : with_console [] w = w.
Proof. destruct w. unfold with_console. simpl. rewrite app_nil_r. reflexivity. Qed.

Lemma with_console_app (out1 out2 : list Output) (w : World) :
  with_console out2 (with_console out1 w) = with_console (out1 ++ out2) w.
Proof. unfold with_console. simpl. rewrite app_assoc. reflexivity. Qed.

Lemma emit_with_console (o : Output) (w : World) :
  emit o w = (tt, with_console [o] w).
Proof. reflexivity. Qed.

Lemma emit_all_with_console (os : list Output) (w : World) :
  emit_all os w = (tt, with_console os w).
Proof.
  revert w. induction os as [|o os IH]; intros w.
  - cbn [emit_all]. unfold mret, M_ret. rewrite with_console_nil. reflexivity.
  - cbn [emit_all]. unfold mbind, M_bind. rewrite emit_with_console, IH, with_console_app.
    reflexivity.
Qed.

Lemma check_plugins_from_spec (registry : GstRegistry) (names : list string)
      (all_found : bool) (w : World) :
  check_plugins_from registry names all_found w
  = (all_found && forallb (gst_registry_find_plugin registry) names,
     with_console (map (plugin_line registry) names) w).
Proof.
  revert all_found w. induction names as [|name names IH]; intros all_found w.
  - cbn. rewrite andb_true_r, with_console_nil. reflexivity.
  - cbn [check_plugins_from map forallb]. unfold plugin_line at 1.
    destruct (gst_registry_find_plugin registry name);
      unfold mbind, M_bind; rewrite emit_with_console, IH, with_console_app.
    + reflexivity.
    + rewrite andb_false_r. reflexivity.
Qed.

Lemma check_required_plugins_world (registry : GstRegistry) (w : World) :
  let r := check_required_plugins registry w in
  (fst r = true <-> forall name, name ∈ required_plugins -> name ∈ plugins registry)
  /\ snd r = with_console
               (g_print "Checking required GStreamer plugins:\n" []
                  :: map (plugin_line registry) required_plugins) w
  /\ length (console (snd r)) = length (console w) + 8.
Proof.
  intros r. subst r. unfold check_required_plugins, mbind, M_bind.
  rewrite emit_with_console, check_plugins_from_spec, with_console_app.
  cbn [fst snd]. split; [|split].
  - rewrite andb_true_l, forallb_forall. split.
    + intros H name Hin. apply list_elem_of_In, H in Hin.
      unfold gst_registry_find_plugin in Hin. apply bool_decide_eq_true_1 in Hin. exact Hin.
    + intros H name Hin. apply bool_decide_eq_true_2, H, list_elem_of_In, Hin.
  - reflexivity.
  - unfold with_console. cbn [console]. rewrite length_app. reflexivity.
Qed.

(** X1.  [check_required_plugins] answers true exactly when every one of
    the seven required plugins is in the registry.  It does not stop at the
    first missing one: it prints the heading and one line for each plugin,
    eight lines in all, and touches nothing but the console. *)
Theorem check_required_plugins_reports_all (registry : GstRegistry) (w : World) :
  let r := check_required_plugins registry w in
  (fst r = true <-> forall name, name ∈ required_plugins -> name ∈ plugins registry)
  /\ snd r = with_console
               (g_print "Checking required GStreamer plugins:\n" []
                  :: map (plugin_line registry) required_plugins) w
  /\ length (console (snd r)) = length (console w) + 8.
Proof. exact (check_required_plugins_world registry w). Qed.

(** ** Command line: errors and edges *)

Lemma parse_loop_prints_only (argv0 : string) (n : nat) :
  forall (args : list string) (c : ReplayConfig) (w : World),
    length args <= n ->
    exists out, snd (parse_loop argv0 args c w) = with_console out w.
Proof.
  induction n as [|n IH]; intros args c w Hlen.
  - destruct args; [|simpl in Hlen; lia]. exists []. symmetry. apply with_console_nil.
  - destruct args as [|arg rest];
      [exists []; symmetry; apply with_console_nil|].
    assert (Hstop : forall os (r : Throws (bool * ReplayConfig)),
               exists out, snd ((emit_all os ;; mret r) w) = with_console out w).
    { intros os r. unfold mbind, M_bind. rewrite emit_all_with_console. eauto. }
    assert (Hunknown : forall r : Throws (bool * ReplayConfig),
               exists out,
                 snd ((emit (g_printerr "Unknown argument: %s\n" [GString arg]) ;; mret r) w)
                 = with_console out w).
    { intros r. unfold mbind, M_bind. rewrite emit_with_console. eauto. }
    assert (Hthrow : forall e : exception,
               exists out, snd (mret (M := M) (Throw (A := bool * ReplayConfig) e) w)
                           = with_console out w).
    { intros e. exists []. symmetry. apply with_console_nil. }
    destruct rest as [|value rest'].
    + cbn [parse_loop].
      destruct (String.eqb arg "--no-hw");
        [exists []; symmetry; apply with_console_nil|].
      destruct (is_help arg); [apply Hstop | apply Hunknown].
    + assert (Htwo : forall c', exists out,
                 snd (parse_loop argv0 rest' c' w) = with_console out w)
        by (intros c'; apply IH; simpl in *; lia).
      cbn [parse_loop].
      destruct (String.eqb arg "-i" || String.eqb arg "--input"); [apply Htwo|].
      destruct (String.eqb arg "-b" || String.eqb arg "--buffer");
        [destruct (stoi value); [apply Htwo | apply Hthrow]|].
      destruct (String.eqb arg "-p" || String.eqb arg "--port");
        [destruct (stoi value); [apply Htwo | apply Hthrow]|].
      destruct (String.eqb arg "--no-hw");
        [apply (IH (value :: rest')); simpl in *; lia|].
      destruct (String.eqb arg "--gpu");
        [destruct (stoi value); [apply Htwo | apply Hthrow]|].
      destruct (String.eqb arg "-m" || String.eqb arg "--mount"); [apply Htwo|].
      destruct (is_help arg); [apply Hstop | apply Hunknown].
Qed.

Lemma parse_arguments_world (argv : list string) (c : ReplayConfig) (w : World) :
  (exists out, snd (parse_arguments argv c w) = with_console out w)
  /\ (forall c', fst (parse_arguments argv c w) = Return (true, c') ->
                 input_rtsp_url c' <> "").
Proof.
  unfold parse_arguments, mbind, M_bind.
  destruct (parse_loop_prints_only (default "" (head argv)) (length (tail argv))
              (tail argv) c w (le_n _)) as [out Hout].
  destruct (parse_loop _ (tail argv) c w) as [[[[|] c1]|e] w1]; cbn [snd] in Hout; subst w1.
  - destruct (String.eqb_spec (input_rtsp_url c1) "") as [Hurl|Hurl].
    + rewrite emit_with_console, with_console_app. cbn [fst snd].
      split; [eauto | discriminate].
    + cbn [fst snd mret M_ret]. split; [eauto|]. intros c' Hc'. congruence.
  - cbn [fst snd mret M_ret]. split; [eauto | discriminate].
  - cbn [fst snd mret M_ret]. split; [eauto | discriminate].
Qed.

(** X2.  [parse_arguments] only prints: it creates, changes and frees no
    object and leaves the globals alone.  Whenever it answers true, the
    input URL of the configuration is not empty. *)
Theorem parse_arguments_requires_url (argv : list string) (c : ReplayConfig) (w : World) :
  (exists out, snd (parse_arguments argv c w) = with_console out w)
  /\ (forall c', fst (parse_arguments argv c w) = Return (true, c') ->
                 input_rtsp_url c' <> "").
Proof. exact (parse_arguments_world argv c w). Qed.

(** X3.  An argument the loop does not know ends parsing at once with the
    answer false: one error line names it, the configuration is as it was,
    and the arguments after it are not looked at. *)
Theorem unknown_argument_stops_parsing (argv0 arg : string) (rest : list string)
        (c : ReplayConfig) (w : World) :
  unknown_argument arg = true ->
  parse_loop argv0 (arg :: rest) c w
  = (Return (false, c),
     with_console [g_printerr "Unknown argument: %s\n" [GString arg]] w).
Proof.
  unfold unknown_argument, takes_value. intros H.
  apply negb_true_iff in H.
  repeat (apply orb_false_iff in H as [H ?]).
  destruct rest as [|value rest']; cbn [parse_loop];
    repeat match goal with Heq : _ = false |- _ => rewrite Heq; clear Heq end;
    reflexivity.
Qed.

(** [--verbose] in front of a valid input option. *)
Lemma unknown_argument_witness :
  parse_loop "instant-replay" ("--verbose" :: ["-i"; "rtsp://camera:554/stream"])
             default_config initial_world
  = (Return (false, default_config),
     with_console [g_printerr "Unknown argument: %s\n" [GString "--verbose"]]
                  initial_world).
Proof.
  apply (unknown_argument_stops_parsing "instant-replay" "--verbose").
  vm_compute. reflexivity.
Defined.

(** Once hardware acceleration is off, no later argument turns it on. *)
Lemma parse_loop_keeps_hw_off (argv0 : string) (n : nat) :
  forall (args : list string) (c : ReplayConfig) (w : World) (b : bool) (c' : ReplayConfig),
    length args <= n ->
    use_hardware_accel c = false ->
    fst (parse_loop argv0 args c w) = Return (b, c') ->
    use_hardware_accel c' = false.
Proof.
  induction n as [|n IH]; intros args c w b c' Hlen Hoff.
  - destruct args; [|simpl in Hlen; lia]. cbn. congruence.
  - destruct args as [|arg rest]; [cbn; congruence|].
    assert (Hstop : forall m : M unit,
               fst ((m ;; mret (Return (false, c))) w) = Return (b, c') ->
               use_hardware_accel c' = false).
    { intros m. unfold mbind, M_bind. destruct (m w). cbn. congruence. }
    destruct rest as [|value rest'].
    + cbn [parse_loop].
      destruct (String.eqb arg "--no-hw");
        [cbn; intros H; injection H as _ <-; reflexivity|].
      destruct (is_help arg); apply Hstop.
    + assert (Htwo : forall c0, use_hardware_accel c0 = false ->
                 fst (parse_loop argv0 rest' c0 w) = Return (b, c') ->
                 use_hardware_accel c' = false)
        by (intros c0 H0; apply IH; [simpl in *; lia | exact H0]).
      cbn [parse_loop].
      destruct (String.eqb arg "-i" || String.eqb arg "--input"); [apply Htwo, Hoff|].
      destruct (String.eqb arg "-b" || String.eqb arg "--buffer");
        [destruct (stoi value); [apply Htwo, Hoff | discriminate]|].
      destruct (String.eqb arg "-p" || String.eqb arg "--port");
        [destruct (stoi value); [apply Htwo, Hoff | discriminate]|].
      destruct (String.eqb arg "--no-hw");
        [apply (IH (value :: rest')); [simpl in *; lia | reflexivity]|].
      destruct (String.eqb arg "--gpu");
        [destruct (stoi value); [apply Htwo, Hoff | discriminate]|].
      destruct (String.eqb arg "-m" || String.eqb arg "--mount"); [apply Htwo, Hoff|].
      destruct (is_help arg); apply Hstop.
Qed.

Lemma parse_loop_no_hw (argv0 : string) (after : list string) (n : nat) :
  forall (before : list string) (c : ReplayConfig) (w : World) (c' : ReplayConfig),
    length before <= n ->
    at_option_position before = true ->
    fst (parse_loop argv0 (before ++ "--no-hw" :: after) c w) = Return (true, c') ->
    use_hardware_accel c' = false.
Proof.
  assert (Hbase : forall c w c',
             fst (parse_loop argv0 ("--no-hw" :: after) c w) = Return (true, c') ->
             use_hardware_accel c' = false).
  { intros c w c'. destruct after as [|value rest']; cbn [parse_loop]; str_eval.
    - cbn. intros H; injection H as <-; reflexivity.
    - intros H.
      apply (parse_loop_keeps_hw_off argv0 (length (value :: rest')) (value :: rest')
               (set_use_hardware_accel false c) w true c');
        [apply le_n | reflexivity | exact H]. }
  assert (Hstop : forall (m : M unit) c w c',
             fst ((m ;; mret (Return (false, c))) w) = Return (true, c') ->
             use_hardware_accel c' = false).
  { intros m c w c'. unfold mbind, M_bind. destruct (m w). cbn. discriminate. }
  induction n as [|n IH]; intros before c w c' Hlen Hpos.
  - destruct before; [apply Hbase | simpl in Hlen; lia].
  - destruct before as [|arg rest]; [apply Hbase|].
    destruct rest as [|value rest'].
    + cbn [at_option_position] in Hpos. revert Hpos. cbn [app parse_loop].
      unfold takes_value.
      destruct (String.eqb_spec arg "-i") as [->|_]; [discriminate|].
      destruct (String.eqb_spec arg "--input") as [->|_]; [discriminate|].
      destruct (String.eqb_spec arg "-b") as [->|_]; [discriminate|].
      destruct (String.eqb_spec arg "--buffer") as [->|_]; [discriminate|].
      destruct (String.eqb_spec arg "-p") as [->|_]; [discriminate|].
      destruct (String.eqb_spec arg "--port") as [->|_]; [discriminate|].
      destruct (String.eqb_spec arg "--gpu") as [->|_]; [discriminate|].
      destruct (String.eqb_spec arg "-m") as [->|_]; [discriminate|].
      destruct (String.eqb_spec arg "--mount") as [->|_]; [discriminate|].
      intros _. str_eval.
      destruct (String.eqb arg "--no-hw"); [apply Hbase|].
      destruct (is_help arg); apply Hstop.
    + assert (Htwo : at_option_position rest' = true -> forall c0,
                fst (parse_loop argv0 (rest' ++ "--no-hw" :: after) c0 w) = Return (true, c') ->
                use_hardware_accel c' = false).
      { intros Hp c0. apply IH; [simpl in Hlen; lia | exact Hp]. }
      cbn [at_option_position] in Hpos. revert Hpos. cbn [app parse_loop].
      unfold takes_value.
      destruct (String.eqb_spec arg "-i") as [->|_]; [str_eval; intros Hp; apply Htwo, Hp|].
      destruct (String.eqb_spec arg "--input") as [->|_];
        [str_eval; intros Hp; apply Htwo, Hp|].
      destruct (String.eqb_spec arg "-b") as [->|_].
      { str_eval. intros Hp. destruct (stoi value); [apply Htwo, Hp | discriminate]. }
      destruct (String.eqb_spec arg "--buffer") as [->|_].
      { str_eval. intros Hp. destruct (stoi value); [apply Htwo, Hp | discriminate]. }
      destruct (String.eqb_spec arg "-p") as [->|_].
      { str_eval. intros Hp. destruct (stoi value); [apply Htwo, Hp | discriminate]. }
      destruct (String.eqb_spec arg "--port") as [->|_].
      { str_eval. intros Hp. destruct (stoi value); [apply Htwo, Hp | discriminate]. }
      destruct (String.eqb_spec arg "--no-hw") as [->|_].
      { str_eval. intros Hp.
        apply (IH (value :: rest')); [simpl in Hlen |- *; lia | exact Hp]. }
      destruct (String.eqb_spec arg "--gpu") as [->|_].
      { str_eval. intros Hp. destruct (stoi value); [apply Htwo, Hp | discriminate]. }
      destruct (String.eqb_spec arg "-m") as [->|_]; [str_eval; intros Hp; apply Htwo, Hp|].
      destruct (String.eqb_spec arg "--mount") as [->|_];
        [str_eval; intros Hp; apply Htwo, Hp|].
      str_eval. intros _. destruct (is_help arg); apply Hstop.
Qed.

Lemma parse_arguments_result (argv : list string) (c : ReplayConfig) (w : World)
      (c' : ReplayConfig) :
  fst (parse_arguments argv c w) = Return (true, c') ->
  fst (parse_loop (default "" (head argv)) (tail argv) c w) = Return (true, c').
Proof.
  unfold parse_arguments, mbind, M_bind.
  destruct (parse_loop _ (tail argv) c w) as [[[[|] c1]|e] w1]; cbn [fst].
  - destruct (String.eqb (input_rtsp_url c1) "").
    + destruct (emit _ w1). cbn. discriminate.
    + cbn. auto.
  - cbn. auto.
  - cbn. auto.
Qed.

(** X6.  When [--no-hw] stands where an option is read and parsing
    succeeds, hardware acceleration is off in the resulting configuration,
    wherever else the flag's neighbours are; [main] then works with
    [HW_ACCEL_NONE] and the replay graph uses the software pair, whatever the
    registry holds. *)
Theorem no_hw_forces_software_pair (argv0 : string) (before after : list string)
        (c : ReplayConfig) (w : World) (c' : ReplayConfig) (registry : GstRegistry) :
  at_option_position before = true ->
  fst (parse_arguments (argv0 :: before ++ "--no-hw" :: after) c w) = Return (true, c') ->
  use_hardware_accel c' = false
  /\ fst (main_hw_type c' registry) = HW_ACCEL_NONE
  /\ launch_elements (pipeline_str (fst (main_hw_type c' registry)))
     = ["filesrc"; "h264parse"; "avdec_h264"; "x264enc"; "h264parse"; "rtph264pay"].
Proof.
  intros Hpos Hparse. apply parse_arguments_result in Hparse.
  cbn [head tail default from_option id] in Hparse.
  assert (Hoff : use_hardware_accel c' = false)
    by (eapply (parse_loop_no_hw argv0 after (length before)); eauto).
  split; [exact Hoff|]. unfold main_hw_type. rewrite Hoff. split; [reflexivity|].
  vm_compute. reflexivity.
Qed.

(** [-i url --no-hw] against a registry that holds every backend. *)
Lemma no_hw_forces_software_witness :
  use_hardware_accel (set_use_hardware_accel false
                        (set_input_rtsp_url "rtsp://camera:554/stream" default_config))
  = false
  /\ fst (main_hw_type (set_use_hardware_accel false
                          (set_input_rtsp_url "rtsp://camera:554/stream" default_config))
                       registry_all_hardware) = HW_ACCEL_NONE
  /\ launch_elements
       (pipeline_str
          (fst (main_hw_type (set_use_hardware_accel false
                                (set_input_rtsp_url "rtsp://camera:554/stream"
                                                    default_config))
                             registry_all_hardware)))
     = ["filesrc"; "h264parse"; "avdec_h264"; "x264enc"; "h264parse"; "rtph264pay"].
Proof.
  apply (no_hw_forces_software_pair "instant-replay" ["-i"; "rtsp://camera:554/stream"] []
           default_config initial_world).
  - reflexivity.
  - vm_compute. reflexivity.
Defined.

Lemma takes_value_cases (arg : string) :
  takes_value arg = true ->
  arg = "-i" \/ arg = "--input" \/ arg = "-b" \/ arg = "--buffer" \/ arg = "-p"
  \/ arg = "--port" \/ arg = "--gpu" \/ arg = "-m" \/ arg = "--mount".
Proof.
  unfold takes_value. intros H.
  repeat (apply orb_true_iff in H as [H|H]);
    apply String.eqb_eq in H; tauto.
Qed.

Lemma parse_loop_missing_value (argv0 arg : string) (n : nat) :
  takes_value arg = true ->
  forall (before : list string) (c : ReplayConfig) (w : World) (c' : ReplayConfig),
    length before <= n ->
    at_option_position before = true ->
    fst (parse_loop argv0 (before ++ [arg]) c w) <> Return (true, c').
Proof.
  intros Harg.
  assert (Hbase : forall c w c',
             fst (parse_loop argv0 [arg] c w) <> Return (true, c')).
  { intros c w c'.
    destruct (takes_value_cases arg Harg) as [->|[->|[->|[->|[->|[->|[->|[->| ->]]]]]]]];
      cbn; discriminate. }
  assert (Hstop : forall (m : M unit) (c : ReplayConfig) w (c' : ReplayConfig),
             fst ((m ;; mret (Return (false, c))) w) <> Return (true, c')).
  { intros m c w c'. unfold mbind, M_bind. destruct (m w). cbn. discriminate. }
  induction n as [|n IH]; intros before c w c' Hlen Hpos.
  - destruct before; [apply Hbase | simpl in Hlen; lia].
  - destruct before as [|a rest]; [apply Hbase|].
    destruct rest as [|value rest'].
    + cbn [at_option_position] in Hpos. revert Hpos. cbn [app parse_loop].
      unfold takes_value.
      destruct (String.eqb_spec a "-i") as [->|_]; [discriminate|].
      destruct (String.eqb_spec a "--input") as [->|_]; [discriminate|].
      destruct (String.eqb_spec a "-b") as [->|_]; [discriminate|].
      destruct (String.eqb_spec a "--buffer") as [->|_]; [discriminate|].
      destruct (String.eqb_spec a "-p") as [->|_]; [discriminate|].
      destruct (String.eqb_spec a "--port") as [->|_]; [discriminate|].
      destruct (String.eqb_spec a "--gpu") as [->|_]; [discriminate|].
      destruct (String.eqb_spec a "-m") as [->|_]; [discriminate|].
      destruct (String.eqb_spec a "--mount") as [->|_]; [discriminate|].
      intros _. str_eval.
      destruct (String.eqb a "--no-hw"); [apply Hbase|].
      destruct (is_help a); apply Hstop.
    + assert (Htwo : at_option_position rest' = true -> forall c0,
                fst (parse_loop argv0 (rest' ++ [arg]) c0 w) <> Return (true, c')).
      { intros Hp c0. apply IH; [simpl in Hlen; lia | exact Hp]. }
      cbn [at_option_position] in Hpos. revert Hpos. cbn [app parse_loop].
      unfold takes_value.
      destruct (String.eqb_spec a "-i") as [->|_]; [str_eval; intros Hp; apply Htwo, Hp|].
      destruct (String.eqb_spec a "--input") as [->|_];
        [str_eval; intros Hp; apply Htwo, Hp|].
      destruct (String.eqb_spec a "-b") as [->|_].
      { str_eval. intros Hp. destruct (stoi value); [apply Htwo, Hp | discriminate]. }
      destruct (String.eqb_spec a "--buffer") as [->|_].
      { str_eval. intros Hp. destruct (stoi value); [apply Htwo, Hp | discriminate]. }
      destruct (String.eqb_spec a "-p") as [->|_].
      { str_eval. intros Hp. destruct (stoi value); [apply Htwo, Hp | discriminate]. }
      destruct (String.eqb_spec a "--port") as [->|_].
      { str_eval. intros Hp. destruct (stoi value); [apply Htwo, Hp | discriminate]. }
      destruct (String.eqb_spec a "--no-hw") as [->|_].
      { str_eval. intros Hp.
        apply (IH (value :: rest')); [simpl in Hlen |- *; lia | exact Hp]. }
      destruct (String.eqb_spec a "--gpu") as [->|_].
      { str_eval. intros Hp. destruct (stoi value); [apply Htwo, Hp | discriminate]. }
      destruct (String.eqb_spec a "-m") as [->|_]; [str_eval; intros Hp; apply Htwo, Hp|].
      destruct (String.eqb_spec a "--mount") as [->|_];
        [str_eval; intros Hp; apply Htwo, Hp|].
      str_eval. intros _. destruct (is_help a); apply Hstop.
Qed.

(** X4.  An option that takes a value, given as the last argument without
    one, is never accepted: [parse_arguments] does not answer true and
    [main] does not get as far as the main loop. *)
Theorem option_without_value_is_rejected (argv0 arg : string) (before : list string)
        (env : Env) (w : World) :
  takes_value arg = true ->
  at_option_position before = true ->
  (forall c c', fst (parse_arguments (argv0 :: before ++ [arg]) c w) <> Return (true, c'))
  /\ started (argv0 :: before ++ [arg]) env w = None.
Proof.
  intros Harg Hpos.
  assert (Hparse : forall c w0 c',
            fst (parse_arguments (argv0 :: before ++ [arg]) c w0) <> Return (true, c')).
  { intros c w0 c' H. apply parse_arguments_result in H.
    cbn [head tail default from_option id] in H.
    exact (parse_loop_missing_value argv0 arg (length before) Harg before c w0 c'
             (le_n _) Hpos H). }
  split; [intros c c'; apply Hparse|].
  unfold started, mbind, M_bind. destruct (emit _ w) as [u w0].
  pose proof (Hparse default_config w0) as H.
  destruct (parse_arguments _ default_config w0) as [[[[|] c1]|e] w1]; try reflexivity.
  exfalso. exact (H c1 eq_refl).
Qed.

(** [--port] at the end of the command line. *)
Lemma option_without_value_witness :
  (forall c c', fst (parse_arguments
                       ("instant-replay" :: ["-i"; "rtsp://camera:554/stream"] ++ ["--port"])
                       c initial_world) <> Return (true, c'))
  /\ started ("instant-replay" :: ["-i"; "rtsp://camera:554/stream"] ++ ["--port"])
             env_end_of_stream initial_world = None.
Proof.
  apply (option_without_value_is_rejected "instant-replay" "--port"
           ["-i"; "rtsp://camera:554/stream"] env_end_of_stream initial_world);
    reflexivity.
Defined.

(** The loop stops at the first number [std::stoi] rejects, wherever the
    option stands. *)
Lemma parse_loop_bad_number (argv0 opt value : string) (rest : list string)
      (e : exception) (n : nat) :
  numeric_option opt = true ->
  stoi value = Throw e ->
  forall (before : list string) (c : ReplayConfig) (w : World),
    length before <= n ->
    read_through before = true ->
    parse_loop argv0 (before ++ opt :: value :: rest) c w = (Throw e, w).
Proof.
  intros Hopt Hv.
  assert (Hbase : forall c w, parse_loop argv0 (opt :: value :: rest) c w = (Throw e, w)).
  { intros c w. revert Hopt. unfold numeric_option. intros Hopt.
    cbn [parse_loop].
    repeat (apply orb_true_iff in Hopt as [Hopt|Hopt]);
      apply String.eqb_eq in Hopt; subst opt; str_eval; rewrite Hv; reflexivity. }
  induction n as [|n IH]; intros before c w Hlen Hread.
  - destruct before; [apply Hbase | simpl in Hlen; lia].
  - destruct before as [|a rest0]; [apply Hbase|].
    destruct rest0 as [|v rest'].
    + cbn [read_through] in Hread. revert Hread.
      destruct (String.eqb_spec a "--no-hw") as [->|_]; [|discriminate].
      intros _. cbn [app parse_loop]. str_eval.
      destruct rest; apply Hbase.
    + assert (Htwo : read_through rest' = true -> forall c0,
                parse_loop argv0 (rest' ++ opt :: value :: rest) c0 w = (Throw e, w)).
      { intros Hr c0. apply IH; [simpl in Hlen; lia | exact Hr]. }
      cbn [read_through] in Hread. revert Hread. cbn [app parse_loop].
      unfold numeric_option, takes_value.
      destruct (String.eqb_spec a "--no-hw") as [->|_].
      { str_eval. intros Hr.
        apply (IH (v :: rest')); [simpl in Hlen |- *; lia | exact Hr]. }
      destruct (String.eqb_spec a "-i") as [->|_]; [str_eval; intros Hr; apply Htwo, Hr|].
      destruct (String.eqb_spec a "--input") as [->|_];
        [str_eval; intros Hr; apply Htwo, Hr|].
      destruct (String.eqb_spec a "-b") as [->|_].
      { str_eval. destruct (stoi v); [intros Hr; apply Htwo, Hr | discriminate]. }
      destruct (String.eqb_spec a "--buffer") as [->|_].
      { str_eval. destruct (stoi v); [intros Hr; apply Htwo, Hr | discriminate]. }
      destruct (String.eqb_spec a "-p") as [->|_].
      { str_eval. destruct (stoi v); [intros Hr; apply Htwo, Hr | discriminate]. }
      destruct (String.eqb_spec a "--port") as [->|_].
      { str_eval. destruct (stoi v); [intros Hr; apply Htwo, Hr | discriminate]. }
      destruct (String.eqb_spec a "--gpu") as [->|_].
      { str_eval. destruct (stoi v); [intros Hr; apply Htwo, Hr | discriminate]. }
      destruct (String.eqb_spec a "-m") as [->|_]; [str_eval; intros Hr; apply Htwo, Hr|].
      destruct (String.eqb_spec a "--mount") as [->|_];
        [str_eval; intros Hr; apply Htwo, Hr|].
      str_eval. discriminate.
Qed.

(** X5.  When the value of [-b], [--buffer], [-p], [--port] or [--gpu]
    is one [std::stoi] rejects, the exception leaves [main], wherever the
    option stands among the arguments the loop has read through: the process
    ends having printed its first line only, before any plugin is checked or
    any object made, whatever follows the value in the vector
    [parse_arguments] receives. *)
Theorem bad_number_ends_process (argv0 opt value : string) (before rest : list string)
        (e : exception) (env : Env) (w : World) :
  read_through before = true ->
  numeric_option opt = true ->
  stoi value = Throw e ->
  main (argv0 :: before ++ opt :: value :: rest) env w
  = (Terminate e, with_console [g_print "Initializing GStreamer 1.28.0...\n" []] w).
Proof.
  intros Hread Hopt Hv.
  unfold main, parse_arguments, mbind, M_bind. rewrite emit_with_console.
  cbn [head tail default from_option id].
  rewrite (parse_loop_bad_number argv0 opt value rest e (length before) Hopt Hv before
             default_config _ (le_n _) Hread).
  reflexivity.
Qed.

(** [-i url --no-hw -p 8554 -b sixty --gpu 0]: the rejected number stands
    after three options that were read. *)
Lemma bad_number_witness :
  main ("instant-replay"
          :: ["-i"; "rtsp://camera:554/stream"; "--no-hw"; "-p"; "8554"]
          ++ "-b" :: "sixty" :: ["--gpu"; "0"])
       env_end_of_stream initial_world
  = (Terminate invalid_argument,
     with_console [g_print "Initializing GStreamer 1.28.0...\n" []] initial_world).
Proof.
  apply (bad_number_ends_process "instant-replay" "-b" "sixty"
           ["-i"; "rtsp://camera:554/stream"; "--no-hw"; "-p"; "8554"]);
    vm_compute; reflexivity.
Defined.

(** ** Handlers: what they leave alone *)

Lemma bus_callback_world (message : GstMessage) (w : World) :
  let r := bus_callback message w in
  fst r = true
  /\ next_id (snd r) = next_id w
  /\ pipeline (snd r) = pipeline w
  /\ shutdown_requested (snd r) = shutdown_requested w
  /\ main_loop (snd r)
     = (if quits (EvBus message) then quit_flag (main_loop w) else main_loop w)
  /\ heap (snd r)
     = match message, pipeline w with
       | GST_MESSAGE_BUFFERING percent, Some p =>
           alter (with_target_state (buffering_target percent)) p (heap w)
       | _, _ => heap w
       end.
Proof.
  destruct w as [h n out p ml sr].
  destruct message; unfold bus_callback, g_main_loop_quit, object_name_of,
    set_pipeline_state, gst_element_set_state, buffering_target; run_m;
    try (repeat split; reflexivity).
  - case_bool_decide; repeat split; reflexivity.
  - destruct (percent <? 100)%Z, p; repeat split; reflexivity.
Qed.

(** X7.  [bus_callback] always answers TRUE, so the watch stays installed.
    It makes and frees nothing and leaves the globals [pipeline] and
    [shutdown_requested] alone; it asks the loop to quit for Error and
    EndOfStream only (a Warning does not); and the only object it ever
    changes is the pipeline, on a Buffering message, and not even that
    while no pipeline is set. *)
Theorem bus_callback_effects (message : GstMessage) (w : World) :
  let r := bus_callback message w in
  fst r = true
  /\ next_id (snd r) = next_id w
  /\ pipeline (snd r) = pipeline w
  /\ shutdown_requested (snd r) = shutdown_requested w
  /\ main_loop (snd r)
     = (if quits (EvBus message) then quit_flag (main_loop w) else main_loop w)
  /\ heap (snd r)
     = match message, pipeline w with
       | GST_MESSAGE_BUFFERING percent, Some p =>
           alter (with_target_state (buffering_target percent)) p (heap w)
       | _, _ => heap w
       end.
Proof. exact (bus_callback_world message w). Qed.

(** What one call of [on_pad_added] does, in any state. *)
Lemma on_pad_added_effect (element : nat) (pad : GstPad) (data : nat) (w : World) :
  exists out,
    snd (on_pad_added element pad data w) = with_console out w
    \/ snd (on_pad_added element pad data w)
       = with_console out
           (set_heap (alter (with_sink_peer (Some (pad_name pad))) data (heap w)) w).
Proof.
  destruct w as [h n out p ml sr].
  unfold on_pad_added, gst_pad_link, gst_pad_is_linked, object_name_of, g_strcmp0,
    with_console.
  run_m.
  destruct (gst_structure_get_string _ "media") as [media|]; [|eexists; left; reflexivity].
  destruct (gst_structure_get_string _ "encoding-name") as [encoding|];
    [|eexists; left; reflexivity].
  destruct (String.eqb media "video"), (String.eqb encoding "H264"); simpl;
    try (eexists; left; reflexivity).
  destruct (h !! data) as [o|] eqn:Hd; simpl; rewrite ?Hd; simpl.
  - destruct (sink_peer o) eqn:Hs; simpl; [eexists; left; reflexivity|].
    rewrite ?Hd; simpl; rewrite ?Hs; simpl.
    destruct (link_return pad); simpl; rewrite <- app_assoc; eexists;
      first [ left; reflexivity | right; reflexivity ].
  - rewrite ?Hd; simpl.
    destruct (link_return pad); simpl; rewrite <- app_assoc; eexists;
      first [ left; reflexivity | right; reflexivity ].
Qed.

Lemma alter_keeps_skeleton (f : GstObject -> GstObject) (i : nat)
      (h : gmap nat GstObject) (k : nat) :
  (forall o, skeleton (f o) = skeleton o) ->
  skeleton <$> alter f i h !! k = skeleton <$> h !! k.
Proof.
  intros Hf. destruct (decide (i = k)) as [->|Hne].
  - rewrite lookup_alter_eq. destruct (h !! k); simpl; [rewrite Hf|]; reflexivity.
  - rewrite lookup_alter_ne by done. reflexivity.
Qed.

Lemma on_pad_added_keeps_skeleton (element : nat) (pad : GstPad) (data : nat)
      (w : World) (k : nat) :
  let w' := snd (on_pad_added element pad data w) in
  skeleton <$> heap w' !! k = skeleton <$> heap w !! k /\ next_id w' = next_id w.
Proof.
  destruct (on_pad_added_effect element pad data w) as [out [H|H]]; cbn zeta; rewrite H.
  - split; reflexivity.
  - split; [|reflexivity]. cbn [with_console set_heap heap].
    apply alter_keeps_skeleton. reflexivity.
Qed.

Lemma emit_pad_added_keeps_skeleton (element : nat) (pad : GstPad)
      (hs : list (string * nat)) (w : World) (k : nat) :
  let w' := snd (emit_pad_added element pad hs w) in
  skeleton <$> heap w' !! k = skeleton <$> heap w !! k /\ next_id w' = next_id w.
Proof.
  revert w. induction hs as [|[signal data] hs IH]; intros w; [split; reflexivity|].
  cbn [emit_pad_added]. unfold mbind, M_bind.
  destruct (String.eqb signal "pad-added").
  - pose proof (on_pad_added_keeps_skeleton element pad data w k) as [H1 H2].
    destruct (on_pad_added element pad data w) as [u w1]. cbn [snd] in *.
    destruct (IH w1) as [H3 H4]. cbn zeta in *. split; congruence.
  - unfold mret, M_ret. apply IH.
Qed.

Lemma dispatch_skeleton (e : Event) (w : World) (k : nat) :
  let w' := snd (dispatch e w) in
  skeleton <$> heap w' !! k = skeleton <$> heap w !! k
  /\ next_id w' = next_id w
  /\ pipeline w' = pipeline w.
Proof.
  destruct e as [m|element pad|signum|].
  - pose proof (bus_callback_world m w) as (_ & Hn & Hp & _ & _ & Hh).
    unfold dispatch, mbind, M_bind.
    destruct (bus_callback m w) as [b w1]. cbn [fst snd mret M_ret] in *.
    split; [|split; assumption]. rewrite Hh.
    destruct m; try reflexivity. destruct (pipeline w); [|reflexivity].
    apply alter_keeps_skeleton. reflexivity.
  - unfold dispatch, mbind, M_bind, lookup_object. cbn [fst snd].
    destruct (heap w !! element) as [o|]; [|repeat split; reflexivity].
    destruct (emit_pad_added_keeps_skeleton element pad (handlers o) w k) as [H1 H2].
    split; [exact H1|]. split; [exact H2|].
    clear H1 H2. revert w. generalize (handlers o) as hs.
    induction hs as [|[signal data] hs IH]; intros w; [reflexivity|].
    cbn [emit_pad_added]. unfold mbind, M_bind.
    destruct (String.eqb signal "pad-added").
    + destruct (on_pad_added_effect element pad data w) as [out [H|H]];
        destruct (on_pad_added element pad data w) as [u w1]; cbn [snd] in H;
        rewrite IH, H; reflexivity.
    + unfold mret, M_ret. apply IH.
  - destruct w. repeat split; reflexivity.
  - destruct w. repeat split; reflexivity.
Qed.

(** X8.  Whichever handler is called (the bus watch with a message,
    [pad-added] of any element with a pad, the signal handler, the
    media-configure hook), no object is made or freed, no reference count
    changes and no bin gains or loses a child; the global [pipeline] stays
    as it is. *)
Theorem dispatch_keeps_reference_counts (e : Event) (w : World) (k : nat) :
  let w' := snd (dispatch e w) in
  skeleton <$> heap w' !! k = skeleton <$> heap w !! k
  /\ next_id w' = next_id w
  /\ pipeline w' = pipeline w.
Proof. exact (dispatch_skeleton e w k). Qed.

(** ** Main loop: a signal that comes before it *)

(** X10.  A signal handled while the main loop does not exist yet sets
    [shutdown_requested] and nothing else.  Nothing reads that flag: the
    loop started afterwards keeps running until some later event makes it
    quit. *)
Theorem signal_before_the_loop_is_lost
        (signum : Z) (w : World) (env : Env) (config : ReplayConfig)
        (rtsp_server pipeline : nat) :
  main_loop w = None ->
  existsb quits (events env) = false ->
  let w1 := snd (signal_handler signum w) in
  shutdown_requested w1 = true
  /\ main_loop w1 = None
  /\ heap w1 = heap w
  /\ fst (main_run env config rtsp_server pipeline w1) = Running.
Proof.
  intros Hml Hev w1. subst w1.
  destruct w as [h n out p ml sr]. cbn [main_loop] in Hml. subst ml.
  rewrite main_run_outcome, Hev. repeat split; reflexivity.
Qed.

(** SIGTERM before the loop, then a buffering message only. *)
Lemma signal_before_the_loop_witness :
  let w1 := snd (signal_handler 15 running_world) in
  shutdown_requested w1 = true
  /\ main_loop w1 = None
  /\ heap w1 = heap running_world
  /\ fst (main_run (env_with registry_software [EvBus (GST_MESSAGE_BUFFERING 100)])
                   default_config 6 0 w1) = Running.
Proof.
  apply (signal_before_the_loop_is_lost 15 running_world
           (env_with registry_software [EvBus (GST_MESSAGE_BUFFERING 100)])
           default_config 6 0); reflexivity.
Defined.

(** ** Pipeline builder: the graph it builds *)

Lemma create_input_pipeline_builds (env : Env) (config : ReplayConfig)
      (hw_type : HWAccelType) (w : World) :
  pipeline_new_ok env = true ->
  elements_available env = true ->
  static_links_ok env = true ->
  create_input_pipeline env config hw_type w
  = (Some (next_id w),
     with_console [g_print "✓ Input pipeline created successfully\n" []]
       (set_store (insert_all (ingest_graph config (next_id w)) (heap w))
                  (S (S (S (S (S (S (next_id w))))))) w)).
Proof.
  intros Hp Hav Hlink. destruct w as [h n out p ml sr].
  unfold elements_available in Hav. unfold static_links_ok in Hlink.
  apply andb_true_iff in Hav as [Hav H5]. apply andb_true_iff in Hav as [Hav H4].
  apply andb_true_iff in Hav as [Hav H3]. apply andb_true_iff in Hav as [H1 H2].
  apply andb_true_iff in Hlink as [Hlink L3]. apply andb_true_iff in Hlink as [L1 L2].
  unfold create_input_pipeline. red_m. rewrite Hp. red_m.
  rewrite H1, H2, H3, H4, H5. red_m.
  link_step. rewrite L1. red_m.
  link_step. rewrite L2. red_m.
  link_step. rewrite L3. red_m.
  unfold with_console, set_store. cbn [heap next_id console pipeline main_loop
    shutdown_requested ingest_graph insert_all].
  f_equal. f_equal.
  apply map_eq. intros k.
  destruct (decide (k = n)) as [->|?];
    [heap_lookups; obj_simpl; reflexivity|].
  destruct (decide (k = S n)) as [->|?];
    [heap_lookups; obj_simpl; reflexivity|].
  destruct (decide (k = S (S n))) as [->|?];
    [heap_lookups; obj_simpl; reflexivity|].
  destruct (decide (k = S (S (S n)))) as [->|?];
    [heap_lookups; obj_simpl; reflexivity|].
  destruct (decide (k = S (S (S (S n))))) as [->|?];
    [heap_lookups; obj_simpl; reflexivity|].
  destruct (decide (k = S (S (S (S (S n)))))) as [->|?];
    [heap_lookups; obj_simpl; reflexivity|].
  heap_lookups. reflexivity.
Qed.


(** X11.  When nothing fails, [create_input_pipeline] returns the pipeline
    with the five elements as its children, the depayloader linked to the
    parser, the parser to the ring buffer and the ring buffer to the sink.
    The sink pad of the depayloader is left free: the source is only
    connected to it through the [pad-added] handler, whose data is the
    depayloader.  No state is requested, the global [pipeline] is not
    assigned, and the objects that existed before are untouched. *)
Theorem ingest_pipeline_is_built_unlinked_and_stopped
        (env : Env) (config : ReplayConfig) (hw_type : HWAccelType) (w : World) :
  pipeline_new_ok env = true ->
  elements_available env = true ->
  static_links_ok env = true ->
  let n := next_id w in
  let r := create_input_pipeline env config hw_type w in
  fst r = Some n
  /\ children <$> heap (snd r) !! n
     = Some [S n; S (S n); S (S (S n)); S (S (S (S n))); S (S (S (S (S n))))]
  /\ entry_peer (S (S n)) (snd r) = None
  /\ entry_peer (S (S (S n))) (snd r) = Some "depay"
  /\ entry_peer (S (S (S (S n)))) (snd r) = Some "parse"
  /\ entry_peer (S (S (S (S (S n))))) (snd r) = Some "ring-buffer"
  /\ handlers <$> heap (snd r) !! S n = Some [("pad-added", S (S n))]
  /\ requested_state n (snd r) = Some GST_STATE_NULL
  /\ object_prop (S n) "location" (snd r) = Some (GString (input_rtsp_url config))
  /\ pipeline (snd r) = pipeline w
  /\ (forall k, k < n -> heap (snd r) !! k = heap w !! k).
Proof.
  intros Hp Hav Hlink n r. subst r n.
  rewrite (create_input_pipeline_builds env config hw_type w Hp Hav Hlink).
  unfold entry_peer, requested_state, object_prop.
  cbn [fst snd with_console set_store heap pipeline ingest_graph insert_all].
  repeat split; try (heap_lookups; reflexivity).
  intros k Hk. heap_lookups. reflexivity.
Qed.

(** Construction from the empty store with every factory available. *)
Lemma ingest_pipeline_witness :
  let env := env_with registry_software [] in
  let n := next_id initial_world in
  let r := create_input_pipeline env default_config HW_ACCEL_NONE initial_world in
  fst r = Some n
  /\ children <$> heap (snd r) !! n
     = Some [S n; S (S n); S (S (S n)); S (S (S (S n))); S (S (S (S (S n))))]
  /\ entry_peer (S (S n)) (snd r) = None
  /\ entry_peer (S (S (S n))) (snd r) = Some "depay"
  /\ entry_peer (S (S (S (S n)))) (snd r) = Some "parse"
  /\ entry_peer (S (S (S (S (S n))))) (snd r) = Some "ring-buffer"
  /\ handlers <$> heap (snd r) !! S n = Some [("pad-added", S (S n))]
  /\ requested_state n (snd r) = Some GST_STATE_NULL
  /\ object_prop (S n) "location" (snd r) = Some (GString (input_rtsp_url default_config))
  /\ pipeline (snd r) = pipeline initial_world
  /\ (forall k, k < n -> heap (snd r) !! k = heap initial_world !! k).
Proof.
  apply (ingest_pipeline_is_built_unlinked_and_stopped (env_with registry_software [])
           default_config HW_ACCEL_NONE initial_world); reflexivity.
Defined.

(** The 64-bit product [(guint64)buffer_seconds * GST_SECOND] for an [int]. *)
Lemma guint64_time (b : Z) :
  (INT_MIN <= b <= INT_MAX)%Z ->
  guint64 (guint64 b * GST_SECOND)
  = (if (0 <=? b)%Z then b * GST_SECOND else 2 ^ 64 + b * GST_SECOND)%Z.
Proof.
  unfold guint64, GST_SECOND, INT_MIN, INT_MAX. intros Hb.
  rewrite Z.mul_mod_idemp_l by lia.
  destruct (0 <=? b)%Z eqn:Hs.
  - apply Z.leb_le in Hs. apply Z.mod_small. lia.
  - apply Z.leb_gt in Hs. symmetry.
    apply (Z.mod_unique_pos _ _ (-1)); lia.
Qed.

(** X12.  The ring buffer is given the time bound [buffer_seconds] times
    one second in nanoseconds, exactly, for every non-negative [int]; a
    negative [buffer_seconds] is not refused but wraps around to the
    unsigned value 2^64 minus its magnitude in nanoseconds.  The byte bound
    is the constant 1000000000, buffering messages are on and the store is
    in memory. *)
Theorem ring_buffer_time_bound
        (env : Env) (config : ReplayConfig) (hw_type : HWAccelType) (w : World) :
  pipeline_new_ok env = true ->
  elements_available env = true ->
  static_links_ok env = true ->
  (INT_MIN <= buffer_seconds config <= INT_MAX)%Z ->
  let ring_buffer := S (S (S (S (next_id w)))) in
  let w' := snd (create_input_pipeline env config hw_type w) in
  object_prop ring_buffer "max-size-time" w'
  = Some (GInt (if (0 <=? buffer_seconds config)%Z
                then buffer_seconds config * 1000000000
                else 2 ^ 64 + buffer_seconds config * 1000000000)%Z)
  /\ object_prop ring_buffer "ring-buffer-max-size" w' = Some (GInt 1000000000)
  /\ object_prop ring_buffer "use-buffering" w' = Some (GBool true)
  /\ object_prop ring_buffer "temp-template" w' = Some GNull.
Proof.
  intros Hp Hav Hlink Hb ring_buffer w'. subst ring_buffer w'.
  rewrite (create_input_pipeline_builds env config hw_type w Hp Hav Hlink).
  unfold object_prop.
  cbn [fst snd with_console set_store heap ingest_graph insert_all].
  heap_lookups. cbn [mbind option_bind props field_lookup].
  rewrite (guint64_time _ Hb). repeat split; reflexivity.
Qed.

(** [-b -1]. *)
Lemma ring_buffer_time_bound_witness :
  let config := set_buffer_seconds (-1) default_config in
  let ring_buffer := S (S (S (S (next_id initial_world)))) in
  let w' := snd (create_input_pipeline (env_with registry_software []) config
                                       HW_ACCEL_NONE initial_world) in
  object_prop ring_buffer "max-size-time" w'
  = Some (GInt (if (0 <=? buffer_seconds config)%Z
                then buffer_seconds config * 1000000000
                else 2 ^ 64 + buffer_seconds config * 1000000000)%Z)
  /\ object_prop ring_buffer "ring-buffer-max-size" w' = Some (GInt 1000000000)
  /\ object_prop ring_buffer "use-buffering" w' = Some (GBool true)
  /\ object_prop ring_buffer "temp-template" w' = Some GNull.
Proof.
  apply (ring_buffer_time_bound (env_with registry_software [])
           (set_buffer_seconds (-1) default_config) HW_ACCEL_NONE initial_world);
    try reflexivity.
  vm_compute. split; discriminate.
Defined.

(** ** Replay server: what is mounted *)

Lemma create_rtsp_server_world (env : Env) (config : ReplayConfig)
      (hw_type : HWAccelType) (w : World) :
  create_rtsp_server env config hw_type w
  = if server_new_ok env
    then (Some (next_id w),
          with_console
            [g_print "✓ RTSP server mounted at rtsp://localhost:%d%s\n"
                     [GInt (output_rtsp_port config); GString (output_mount_point config)]]
            (set_store (<[next_id w := replay_server config hw_type]> (heap w))
                       (S (next_id w)) w))
    else (None, with_console [g_printerr "Failed to create RTSP server\n" []] w).
Proof.
  destruct w as [h n out p ml sr].
  unfold create_rtsp_server, gst_rtsp_server_new, g_object_set, alloc.
  destruct (server_new_ok env); red_m; [|reflexivity].
  unfold with_console, set_store, replay_server.
  cbn [heap next_id console pipeline main_loop shutdown_requested].
  f_equal. f_equal. apply map_eq. intros k.
  destruct (decide (k = n)) as [->|?]; heap_lookups; reflexivity.
Qed.

(** X13.  When the server object can be made, [create_rtsp_server] returns
    it with the port printed in decimal as its service and exactly one
    factory, mounted at the configured mount point: shared, with RTCP, over
    TCP only, with the media-configure hook connected; no other object is
    touched.  When it cannot, the answer is null and no object is made. *)
Theorem replay_server_is_shared_and_tcp_only
        (env : Env) (config : ReplayConfig) (hw_type : HWAccelType) (w : World) :
  let r := create_rtsp_server env config hw_type w in
  if server_new_ok env then
    fst r = Some (next_id w)
    /\ object_prop (next_id w) "service" (snd r)
       = Some (GString (pretty (output_rtsp_port config)))
    /\ mounts <$> heap (snd r) !! next_id w
       = Some [(output_mount_point config,
                {| launch := pipeline_str hw_type; shared := true; enable_rtcp := true;
                   protocols := GST_RTSP_LOWER_TRANS_TCP; media_configure := true |})]
    /\ (forall k, k <> next_id w -> heap (snd r) !! k = heap w !! k)
  else
    fst r = None /\ heap (snd r) = heap w /\ next_id (snd r) = next_id w.
Proof.
  intros r. subst r. rewrite create_rtsp_server_world.
  destruct (server_new_ok env).
  - unfold object_prop. cbn [fst snd with_console set_store heap].
    repeat split; try (heap_lookups; reflexivity).
    intros k Hk. rewrite lookup_insert_ne by done. reflexivity.
  - repeat split; reflexivity.
Qed.

(** X14.  For NVIDIA, VAAPI and software, the playback graph mounted by
    [create_rtsp_server] decodes and encodes with the elements that
    [get_decoder_element] and [get_encoder_element] name for that type. *)
Theorem playback_graph_uses_selected_pair
        (env : Env) (config : ReplayConfig) (hw_type : HWAccelType) (w : World) :
  server_new_ok env = true ->
  hw_type <> HW_ACCEL_MSDK ->
  mounted_elements (create_rtsp_server env config hw_type w)
  = [(output_mount_point config,
      ["filesrc"; "h264parse"; get_decoder_element hw_type; get_encoder_element hw_type;
       "h264parse"; "rtph264pay"])].
Proof.
  intros Hok Hhw.
  rewrite (create_rtsp_server_mounts env config hw_type w Hok).
  rewrite (pipeline_str_uses_selected_pair hw_type Hhw). reflexivity.
Qed.

(** VAAPI. *)
Lemma playback_graph_witness :
  mounted_elements (create_rtsp_server (env_with registry_all_hardware []) default_config
                                       HW_ACCEL_VAAPI initial_world)
  = [(output_mount_point default_config,
      ["filesrc"; "h264parse"; get_decoder_element HW_ACCEL_VAAPI;
       get_encoder_element HW_ACCEL_VAAPI; "h264parse"; "rtph264pay"])].
Proof.
  apply (playback_graph_uses_selected_pair (env_with registry_all_hardware [])
           default_config HW_ACCEL_VAAPI initial_world); [reflexivity | discriminate].
Defined.

(** ** Startup: a missing plugin *)

(** X15.  When a required plugin is missing, startup ends there with the
    failure answer: every plugin has been reported and two error lines
    follow, the hardware is not probed, and no object has been made. *)
Theorem missing_plugin_aborts_before_any_object
        (env : Env) (config : ReplayConfig) (w : World) (name : string) :
  name ∈ required_plugins ->
  name ∉ plugins (env_registry env) ->
  main_startup env config w
  = (None,
     with_console
       (g_print "Checking required GStreamer plugins:\n" []
          :: map (plugin_line (env_registry env)) required_plugins
          ++ [g_printerr "\nError: Missing required GStreamer plugins.\n" [];
              g_printerr
                "Please install gstreamer1.0-plugins-{base,good,bad,ugly} and gstreamer1.0-libav\n"
                []])%list
       w).
Proof.
  intros Hin Hmiss.
  pose proof (check_required_plugins_world (env_registry env) w) as (Hiff & Hw & _).
  assert (Hfalse : fst (check_required_plugins (env_registry env) w) = false).
  { destruct (fst (check_required_plugins (env_registry env) w)); [|reflexivity].
    exfalso. apply Hmiss. apply (proj1 Hiff eq_refl). exact Hin. }
  unfold main_startup, mbind, M_bind.
  destruct (check_required_plugins (env_registry env) w) as [ok w1].
  cbn [fst snd] in Hfalse, Hw. subst ok w1. cbn [negb].
  rewrite !emit_with_console, !with_console_app. unfold mret, M_ret.
  reflexivity.
Qed.

(** A registry with two of the seven plugins. *)
Lemma missing_plugin_witness :
  main_startup (env_with (mkRegistry {[ "avdec_h264" ]} {[ "rtsp"; "rtp" ]}) [])
               default_config initial_world
  = (None,
     with_console
       (g_print "Checking required GStreamer plugins:\n" []
          :: map (plugin_line (mkRegistry {[ "avdec_h264" ]} {[ "rtsp"; "rtp" ]}))
                 required_plugins
          ++ [g_printerr "\nError: Missing required GStreamer plugins.\n" [];
              g_printerr
                "Please install gstreamer1.0-plugins-{base,good,bad,ugly} and gstreamer1.0-libav\n"
                []])%list
       initial_world).
Proof.
  apply (missing_plugin_aborts_before_any_object
           (env_with (mkRegistry {[ "avdec_h264" ]} {[ "rtsp"; "rtp" ]}) [])
           default_config initial_world "libav").
  - apply (bool_decide_unpack _). vm_compute. exact I.
  - apply (bool_decide_unpack _). vm_compute. exact I.
Defined.

(** ** Startup and shutdown: what is released *)

Ltac red_w :=
  unfold with_console, set_store, set_pipeline; red_m; cbn [insert_all ingest_graph].

Lemma create_input_pipeline_fails (env : Env) (config : ReplayConfig)
      (hw_type : HWAccelType) (w : World) :
  fresh_from w ->
  pipeline_new_ok env && elements_available env && static_links_ok env = false ->
  let r := create_input_pipeline env config hw_type w in
  fst r = None /\ heap (snd r) = heap w.
Proof.
  intros Hfresh Hfail.
  destruct (elements_available env) eqn:Hav; [|apply create_fails_elements; assumption].
  destruct (static_links_ok env) eqn:Hl; [|apply create_fails_link; assumption].
  destruct (pipeline_new_ok env) eqn:Hp; [discriminate|].
  unfold create_input_pipeline. red_m. rewrite Hp. red_m. split; reflexivity.
Qed.

(** What [main_startup] leaves in a store that was empty.  Where the
    pipeline refuses to play, [main] drops it without asking for the NULL
    state first; what the engine then does with it is not modelled, and that
    path is left out. *)
Lemma main_startup_store (env : Env) (config : ReplayConfig) (w : World) :
  heap w = ∅ ->
  let n := next_id w in
  let hw_type := fst (main_hw_type config (env_registry env)) in
  let r := main_startup env config w in
  match fst r with
  | None => playing_return env <> GST_STATE_CHANGE_FAILURE -> heap (snd r) = ∅
  | Some (rtsp_server, pipeline_elem) =>
      rtsp_server = S (S (S (S (S (S n))))) /\ pipeline_elem = n
      /\ pipeline (snd r) = Some n
      /\ heap (snd r) = running_store config hw_type n
  end.
Proof.
  intros Hheap n hw_type r. subst r.
  destruct w as [h n0 out p ml sr]. cbn [heap] in Hheap. subst h.
  cbn [next_id] in n. subst n.
  assert (Hfresh : forall k, n0 <= k -> (∅ : gmap nat GstObject) !! k = None)
    by (intros; apply lookup_empty).
  unfold main_startup, mbind, M_bind.
  pose proof (check_required_plugins_world (env_registry env)
                (mkWorld ∅ n0 out p ml sr)) as (_ & Hw & _).
  destruct (check_required_plugins _ _) as [ok w1]. cbn [snd] in Hw. subst w1.
  destruct ok; cbn [negb]; [|red_w; intros _; reflexivity].
  subst hw_type. destruct (main_hw_type config (env_registry env)) as [hw dout].
  cbn [fst].
  rewrite emit_all_with_console, !emit_with_console, !with_console_app.
  match goal with
  | |- context [create_input_pipeline env config hw ?W] => set (W0 := W)
  end.
  destruct (pipeline_new_ok env && elements_available env && static_links_ok env)
    eqn:Hall.
  - apply andb_true_iff in Hall as [Hall Hl]. apply andb_true_iff in Hall as [Hp Hav].
    rewrite (create_input_pipeline_builds env config hw W0 Hp Hav Hl).
    subst W0. red_w. rewrite create_rtsp_server_world.
    destruct (server_new_ok env).
    + red_w. unfold gst_rtsp_server_attach.
      destruct (attach_id env) as [|server_id]; cbn [Nat.eqb].
      * red_w. cbn [Nat.eqb]. red_w. unref_step. bin_unref_step.
        cbn [fst snd heap]. intros _. heap_restored Hfresh.
      * red_w. cbn [Nat.eqb]. red_w. unfold gst_element_set_state. red_m.
        rewrite alter_insert_eq.
        destruct (playing_return env) eqn:Hplay; red_m;
          try (cbn [fst snd heap pipeline]; repeat split; reflexivity).
        destruct (gst_object_unref _ _) as [u1 W1].
        destruct (gst_object_unref _ _) as [u2 W2].
        cbn [fst snd]. intros H. exfalso. apply H. reflexivity.
    + red_w. bin_unref_step. cbn [fst snd heap]. intros _. heap_restored Hfresh.
  - pose proof (create_input_pipeline_fails env config hw W0) as Hf.
    destruct (create_input_pipeline env config hw W0) as [res W1].
    destruct Hf as [Hres HW1]; [subst W0; exact Hfresh | exact Hall |].
    cbn [fst snd] in Hres, HW1. subst res W0.
    destruct W1 as [h1 n1 out1 p1 ml1 sr1]. unfold with_console in HW1.
    cbn [heap] in HW1. subst h1. red_w. intros _. reflexivity.
Qed.








(** X17.  When [main], started with an empty store, gets as far as the main
    loop, the store holds exactly seven objects (the pipeline, its five
    elements and the server), the global [pipeline] names the pipeline, the
    pipeline has been asked to play, and the sink pad of the depayloader is
    still free. *)
Theorem running_system_store (argv : list string) (env : Env) (w : World)
        (config : ReplayConfig) (rtsp_server pipeline_elem : nat) (w1 : World) :
  heap w = ∅ ->
  started argv env w = Some (config, rtsp_server, pipeline_elem, w1) ->
  pipeline_elem = next_id w
  /\ rtsp_server = S (S (S (S (S (S (next_id w))))))
  /\ pipeline w1 = Some pipeline_elem
  /\ requested_state pipeline_elem w1 = Some GST_STATE_PLAYING
  /\ entry_peer (S (S pipeline_elem)) w1 = None
  /\ (forall k, is_Some (heap w1 !! k) <-> next_id w <= k <= next_id w + 6).
Proof.
  intros Hheap. unfold started, mbind, M_bind. rewrite emit_with_console.
  match goal with
  | |- context [parse_arguments argv default_config ?W] =>
      destruct (parse_arguments_world argv default_config W) as [[out Hout] _];
      destruct (parse_arguments argv default_config W) as [parsed w0]
  end.
  cbn [snd] in Hout. rewrite with_console_app in Hout. subst w0.
  destruct parsed as [[[|] c]|e]; try discriminate.
  match goal with
  | |- context [main_startup env c ?W] =>
      pose proof (main_startup_store env c W Hheap) as Hs;
      destruct (main_startup env c W) as [[[s p]|] w2]
  end; cbn [fst snd] in Hs; [|discriminate].
  intros Heq. injection Heq as <- <- <- <-.
  destruct Hs as (-> & -> & Hp & Hh). cbn [with_console next_id] in *.
  unfold requested_state, entry_peer. rewrite Hh. unfold running_store.
  cbn [insert_all ingest_graph].
  split; [reflexivity|]. split; [reflexivity|]. split; [assumption|].
  split; [heap_lookups; reflexivity|]. split; [heap_lookups; reflexivity|].
  intros k. split.
  - intros [o Ho].
    destruct (decide (next_id w <= k <= next_id w + 6)) as [Hk|Hk]; [assumption|].
    exfalso. revert Ho. heap_lookups. rewrite lookup_empty. discriminate.
  - intros Hk.
    assert (Hcases : k = next_id w \/ k = S (next_id w) \/ k = S (S (next_id w))
                     \/ k = S (S (S (next_id w))) \/ k = S (S (S (S (next_id w))))
                     \/ k = S (S (S (S (S (next_id w)))))
                     \/ k = S (S (S (S (S (S (next_id w))))))) by lia.
    destruct Hcases as [->|[->|[->|[->|[->|[->| ->]]]]]]; heap_lookups; eauto.
Qed.

(** The command line [instant-replay -i rtsp://camera:554/stream]. *)
Lemma running_system_witness :
  0 = next_id initial_world
  /\ 6 = S (S (S (S (S (S (next_id initial_world))))))
  /\ pipeline running_world = Some 0
  /\ requested_state 0 running_world = Some GST_STATE_PLAYING
  /\ entry_peer (S (S 0)) running_world = None
  /\ (forall k, is_Some (heap running_world !! k)
                <-> next_id initial_world <= k <= next_id initial_world + 6).
Proof.
  apply (running_system_store replay_command (env_with registry_software [])
           initial_world
           (set_input_rtsp_url "rtsp://camera:554/stream" default_config) 6 0
           running_world).
  - reflexivity.
  - vm_compute. reflexivity.
Defined.
